(** * plot_config: the style configuration loader

    A shallow embedding of [plot_config.py].  The module is a script: it
    binds module-level names, builds two dictionaries, probes the host for
    a LaTeX executable, merges the dictionaries according to the probe,
    prints a summary and updates matplotlib's global [rcParams].

    The script is embedded as a computation in a state-and-exception monad
    over an interpreter state made of the module namespace, a heap of
    dictionary objects (so that aliasing and mutation are visible), the
    lines written to standard output and the warnings issued.  What lies
    outside the module is an input of the model: the outcome of the
    external lookup ([subprocess.run]), whether standard output accepts a
    line, whether the warning filters turn a warning into an exception,
    and matplotlib's table of validators. *)

From Stdlib Require Import ZArith QArith Ascii String.
From stdpp Require Import gmap strings list fin_maps pretty.

Local Open Scope Z_scope.
Local Open Scope string_scope.

(** ** Values *)

(** The values stored under configuration keys: integers, floats, booleans,
    strings and lists of strings.  The module never computes with a float,
    it only stores literals, so a float is kept as the rational its decimal
    literal denotes. *)
Inductive value : Type :=
  | VInt (n : Z)
  | VFloat (q : Q)
  | VBool (b : bool)
  | VStr (s : string)
  | VList (l : list string).

(** A Python [dict] with string keys. *)
Abbreviation pydict := (gmap string value).

(** Objects live in a heap and are named by their location. *)
Abbreviation loc := positive.

(** What a module-level name can be bound to. *)
Inductive gval : Type :=
  | GInt (n : Z)
  | GStr (s : string)
  | GBool (b : bool)
  | GDict (l : loc).

Inductive warning_category : Type :=
  | UserWarning.

(** The exception classes that matter here: the three the probe names in
    its [except] clause; three further ones [subprocess.run] can raise;
    what writing to standard output can raise; what matplotlib raises for
    a key or a value it rejects; a warning that the warning filters turn
    into an exception; and the interpreter's own errors for an unbound
    name, a value of the wrong type and a dangling reference. *)
Inductive exn : Type :=
  | TimeoutExpired
  | CalledProcessError
  | FileNotFoundError
  | PermissionError
  | NotADirectoryError
  | UnicodeDecodeError
  | UnicodeEncodeError
  | BrokenPipeError
  | ValueError
  | KeyError
  | WarningError (c : warning_category)
  | NameError
  | TypeError
  | SystemError.

(** ** Interpreter state *)

Record state : Type := mkState {
  globals : gmap string gval;            (* the module namespace *)
  heap : gmap loc pydict;                (* dictionary objects *)
  next_loc : loc;                        (* next free location *)
  stdout : list string;                  (* lines printed, oldest first *)
  warnings : list (string * warning_category)   (* warnings.warn calls *)
}.

(** ** The monad *)

Inductive outcome (A : Type) : Type :=
  | Ok (a : A) (s : state)
  | Raised (e : exn) (s : state).
Arguments Ok {A} a s.
Arguments Raised {A} e s.

Definition M (A : Type) : Type := state -> outcome A.

Definition ret {A} (a : A) : M A := fun s => Ok a s.

Definition bind {A B} (m : M A) (k : A -> M B) : M B :=
  fun s => match m s with
           | Ok a s' => k a s'
           | Raised e s' => Raised e s'
           end.

Definition raise {A} (e : exn) : M A := fun s => Raised e s.

(** [try: body except (classes): handler].  State changes made by the body
    before it raised are kept, as in Python. *)
Definition try_except {A} (body : M A) (caught : exn -> bool) (handler : M A) : M A :=
  fun s => match body s with
           | Ok a s' => Ok a s'
           | Raised e s' => if caught e then handler s' else Raised e s'
           end.

Declare Scope py_scope.
Delimit Scope py_scope with py.
Notation "x <- m ;; k" := (bind m (fun x => k))
  (at level 100, m at next level, right associativity) : py_scope.
Notation "m ;;; k" := (bind m (fun _ => k))
  (at level 100, right associativity) : py_scope.
Local Open Scope py_scope.

(** ** Primitive statements *)

(** [x = v] at module level. *)
Definition assign (x : string) (v : gval) : M unit :=
  fun s => Ok tt (mkState (<[x := v]> (globals s)) (heap s) (next_loc s)
                          (stdout s) (warnings s)).

(** Reading a module-level name. *)
Definition load (x : string) : M gval :=
  fun s => match globals s !! x with
           | Some v => Ok v s
           | None => Raised NameError s
           end.

Definition load_int (x : string) : M Z :=
  v <- load x ;;
  match v with GInt n => ret n | _ => raise TypeError end.

Definition load_str (x : string) : M string :=
  v <- load x ;;
  match v with GStr t => ret t | _ => raise TypeError end.

Definition load_bool (x : string) : M bool :=
  v <- load x ;;
  match v with GBool b => ret b | _ => raise TypeError end.

Definition load_ref (x : string) : M loc :=
  v <- load x ;;
  match v with GDict l => ret l | _ => raise TypeError end.

(** A dictionary display allocates a fresh object. *)
Definition new_dict (d : pydict) : M loc :=
  fun s => Ok (next_loc s)
              (mkState (globals s) (<[next_loc s := d]> (heap s))
                       (Pos.succ (next_loc s)) (stdout s) (warnings s)).

Definition deref (l : loc) : M pydict :=
  fun s => match heap s !! l with
           | Some d => Ok d s
           | None => Raised SystemError s
           end.

(** Evaluating a name that is bound to a dictionary, for [**name]. *)
Definition load_dict (x : string) : M pydict :=
  l <- load_ref x ;; deref l.

(** ** Dictionaries *)

(** [d[k] = v]: the later binding wins. *)
Definition dict_set (k : string) (v : value) (d : pydict) : pydict := <[k := v]> d.

(** [d.update(e)] and the [**e] item of a display: every key of [e] is
    written into [d]; on a collision the value of [e] wins. *)
Definition dict_update (d e : pydict) : pydict := e ∪ d.

(** A display of [key: value] items, inserted in source order. *)
Definition dict_literal (items : list (string * value)) : pydict :=
  fold_left (fun d kv => dict_set kv.1 kv.2 d) items ∅.

(** ** The host *)

(** What [subprocess.run] hands back when the child process ran to its end. *)
Record completed_process : Type := mkCompleted {
  returncode : Z;
  proc_stdout : string
}.

(** A call of [subprocess.run] either returns a completed process or raises. *)
Inductive run_outcome : Type :=
  | Completes (r : completed_process)
  | Raises (e : exn).

(** What writing a line to standard output can raise: a character the
    stream's encoding lacks, a closed pipe, a closed file. *)
Inductive stream_error : Type :=
  | CannotEncode
  | PipeClosed
  | FileClosed.

Definition stream_exn (e : stream_error) : exn :=
  match e with
  | CannotEncode => UnicodeEncodeError
  | PipeClosed => BrokenPipeError
  | FileClosed => ValueError
  end.

(** The host system and the libraries, as far as the module reaches them:
    - [run]: the outcome of running a command line with a timeout (in
      seconds);
    - [write_fails]: given the lines already written to standard output
      and the next line, the error writing that line raises, if any;
    - [warning_is_error]: whether the warning filters in force turn a
      warning into an exception;
    - [validate]: matplotlib's table of validators, from a configuration
      key to the function that checks a value for that key and returns the
      form in which it is stored; no entry for a key matplotlib does not
      know, no result for a value the validator rejects. *)
Record world : Type := mkWorld {
  run : list string -> Z -> run_outcome;
  write_fails : list string -> string -> option stream_error;
  warning_is_error : string -> warning_category -> bool;
  validate : string -> option (value -> option value)
}.

(** A host is asked for the outcome of a command by applying it. *)
Coercion run : world >-> Funclass.

(** [subprocess.run(args, capture_output=True, text=True, timeout=t)]. *)
Definition subprocess_run (w : world) (args : list string) (t : Z) : M completed_process :=
  match w args t with
  | Completes r => ret r
  | Raises e => raise e
  end.

(** [print(line)]: the line is written, or the write raises and nothing is
    written. *)
Definition print (w : world) (line : string) : M unit :=
  fun s => match write_fails w (stdout s) line with
           | Some e => Raised (stream_exn e) s
           | None => Ok tt (mkState (globals s) (heap s) (next_loc s)
                                    (stdout s ++ [line]) (warnings s))
           end.

(** [warnings.warn(msg, category)]: the warning is issued, or, under a
    filter that makes it an error, raised as an exception. *)
Definition warn (w : world) (msg : string) (c : warning_category) : M unit :=
  fun s => if warning_is_error w msg c
           then Raised (WarningError c) s
           else Ok tt (mkState (globals s) (heap s) (next_loc s)
                               (stdout s) (warnings s ++ [(msg, c)])).

(** ** [str.strip()] *)

(** A Python [str] is kept as the bytes of its UTF-8 encoding, so a
    character is one to four bytes.  [str.strip()] removes the characters
    for which [str.isspace] holds. *)

(** Whitespace in the ASCII range: tab, line feed, vertical tab, form feed,
    carriage return, the four separators 28-31 and the space. *)
Definition is_space (a : Ascii.ascii) : bool :=
  let n := N_of_ascii a in
  ((9 <=? n) && (n <=? 13) || (28 <=? n) && (n <=? 32))%N.

(** Whitespace encoded on two bytes: U+0085 and U+00A0. *)
Definition is_space2 (a b : Ascii.ascii) : bool :=
  let '(x, y) := (N_of_ascii a, N_of_ascii b) in
  ((x =? 194) && ((y =? 133) || (y =? 160)))%N.

(** Whitespace encoded on three bytes: U+1680, U+2000 to U+200A, U+2028,
    U+2029, U+202F, U+205F and U+3000. *)
Definition is_space3 (a b c : Ascii.ascii) : bool :=
  let '(x, y, z) := (N_of_ascii a, N_of_ascii b, N_of_ascii c) in
  ((x =? 225) && (y =? 154) && (z =? 128)
   || (x =? 226) && (y =? 128)
      && ((128 <=? z) && (z <=? 138) || (z =? 168) || (z =? 169) || (z =? 175))
   || (x =? 226) && (y =? 129) && (z =? 159)
   || (x =? 227) && (y =? 128) && (z =? 128))%N.

Fixpoint lstrip (s : string) : string :=
  match s with
  | EmptyString => EmptyString
  | String a t =>
      if is_space a then lstrip t else
      match t with
      | EmptyString => s
      | String b t2 =>
          if is_space2 a b then lstrip t2 else
          match t2 with
          | EmptyString => s
          | String c t3 => if is_space3 a b c then lstrip t3 else s
          end
      end
  end.

(** [lstrip] on a string whose bytes are in reverse order. *)
Fixpoint lstrip_reversed (s : string) : string :=
  match s with
  | EmptyString => EmptyString
  | String c t =>
      if is_space c then lstrip_reversed t else
      match t with
      | EmptyString => s
      | String b t2 =>
          if is_space2 b c then lstrip_reversed t2 else
          match t2 with
          | EmptyString => s
          | String a t3 => if is_space3 a b c then lstrip_reversed t3 else s
          end
      end
  end.

Definition rstrip (s : string) : string :=
  String.rev (lstrip_reversed (String.rev s)).

Definition strip (s : string) : string := rstrip (lstrip s).

(** ** The module, top to bottom *)

(** Lines 18-20. *)
Definition define_font_sizes : M unit :=
  assign "SMALL_SIZE" (GInt 10) ;;;
  assign "MEDIUM_SIZE" (GInt 12) ;;;
  assign "LARGE_SIZE" (GInt 14).

(** The display of lines 27-68, with the three size names already read. *)
Definition base_params_display (SMALL_SIZE MEDIUM_SIZE LARGE_SIZE : Z) : pydict :=
  dict_literal
    [ ("figure.dpi", VInt 100);
      ("savefig.dpi", VInt 600);
      ("figure.facecolor", VStr "white");
      ("axes.facecolor", VStr "white");
      ("font.size", VInt MEDIUM_SIZE);
      ("axes.titlesize", VInt LARGE_SIZE);
      ("axes.labelsize", VInt MEDIUM_SIZE);
      ("xtick.labelsize", VInt SMALL_SIZE);
      ("ytick.labelsize", VInt SMALL_SIZE);
      ("legend.fontsize", VInt MEDIUM_SIZE);
      ("figure.titlesize", VInt LARGE_SIZE);
      ("lines.linewidth", VFloat 1.5);
      ("lines.markersize", VInt 5);
      ("patch.linewidth", VFloat 0.5);
      ("xtick.direction", VStr "in");
      ("ytick.direction", VStr "in");
      ("xtick.top", VBool true);
      ("xtick.bottom", VBool true);
      ("ytick.left", VBool true);
      ("ytick.right", VBool true);
      ("xtick.minor.visible", VBool true);
      ("ytick.minor.visible", VBool true);
      ("axes.grid", VBool false);
      ("grid.alpha", VFloat 0.3);
      ("axes.spines.top", VBool true);
      ("axes.spines.bottom", VBool true);
      ("axes.spines.left", VBool true);
      ("axes.spines.right", VBool true) ].

(** Lines 27-68: [base_params = {...}]. *)
Definition define_base_params : M unit :=
  small <- load_int "SMALL_SIZE" ;;
  medium <- load_int "MEDIUM_SIZE" ;;
  large <- load_int "LARGE_SIZE" ;;
  l <- new_dict (base_params_display small medium large) ;;
  assign "base_params" (GDict l).

(** The display of lines 71-77. *)
Definition latex_params_display : pydict :=
  dict_literal
    [ ("text.usetex", VBool true);
      ("text.latex.preamble", VStr "\usepackage{amsmath}");
      ("font.family", VStr "serif");
      ("font.serif", VList ["Computer Modern Roman"]);
      ("mathtext.fontset", VStr "cm") ].

(** Lines 71-77: [latex_params = {...}]. *)
Definition define_latex_params : M unit :=
  l <- new_dict latex_params_display ;;
  assign "latex_params" (GDict l).

(** Lines 85-92. *)
Definition define_presets : M unit :=
  assign "contourLevels" (GInt 100) ;;;
  assign "colormap" (GStr "bwr") ;;;
  assign "savefig_format" (GStr "png") ;;;
  assign "SAVE_DIR" (GStr "").

(** The classes of the [except] clause at line 115. *)
Definition probe_caught (e : exn) : bool :=
  match e with
  | TimeoutExpired | CalledProcessError | FileNotFoundError => true
  | _ => false
  end.

Definition found_line (latex_path : string) : string :=
  "✓ LaTeX found at: " ++ latex_path.

(** Lines 98-116. *)
Definition check_latex_available (w : world) : M bool :=
  try_except
    (result <- subprocess_run w ["which"; "latex"] 5 ;;
     if (returncode result =? 0)%Z then
       let latex_path := strip (proc_stdout result) in
       print w (found_line latex_path) ;;;
       ret true
     else
       ret false)
    probe_caught
    (ret false).

Definition not_found_line : string := "✗ LaTeX not found in PATH".

Definition fallback_warning : string * warning_category :=
  ("LaTeX not found. Falling back to standard matplotlib fonts. " ++
   "For better typography, install LaTeX (see README for instructions).",
   UserWarning).

(** Lines 119-127. *)
Definition probe_and_report (w : world) : M unit :=
  available <- check_latex_available w ;;
  assign "LATEX_AVAILABLE" (GBool available) ;;;
  flag <- load_bool "LATEX_AVAILABLE" ;;
  if negb flag then
    print w not_found_line ;;;
    warn w fallback_warning.1 fallback_warning.2
  else
    ret tt.

(** The display of line 131, [{**base_params, **latex_params}]: the items
    are written into an empty dictionary from left to right. *)
Definition merge_available (base latex : pydict) : pydict :=
  dict_update (dict_update ∅ base) latex.

(** The display of lines 133-136,
    [{**base_params, 'font.family': 'serif', 'mathtext.fontset': 'dejavuserif'}]. *)
Definition merge_fallback (base : pydict) : pydict :=
  dict_set "mathtext.fontset" (VStr "dejavuserif")
    (dict_set "font.family" (VStr "serif")
       (dict_update ∅ base)).

(** Lines 130-136: the merge.  Each display builds a new object. *)
Definition merge_params : M unit :=
  flag <- load_bool "LATEX_AVAILABLE" ;;
  if flag then
    base <- load_dict "base_params" ;;
    latex <- load_dict "latex_params" ;;
    l <- new_dict (merge_available base latex) ;;
    assign "params" (GDict l)
  else
    base <- load_dict "base_params" ;;
    l <- new_dict (merge_fallback base) ;;
    assign "params" (GDict l).

(** The five lines of the summary, as the f-strings of lines 144-148
    format them. *)
Definition summary_lines (flag : bool) (fmt : string) (levels : Z) (cmap : string)
  : list string :=
  [ "🎨 Scientific plotting configuration loaded";
    "   LaTeX support: " ++ (if flag then "✓ Enabled" else "✗ Disabled");
    "   Default save format: " ++ fmt;
    "   Contour levels: " ++ pretty levels;
    "   Colormap: " ++ cmap ].

(** Lines 144-148. *)
Definition print_summary (w : world) : M unit :=
  print w "🎨 Scientific plotting configuration loaded" ;;;
  flag <- load_bool "LATEX_AVAILABLE" ;;
  print w ("   LaTeX support: " ++ (if flag then "✓ Enabled" else "✗ Disabled")) ;;;
  fmt <- load_str "savefig_format" ;;
  print w ("   Default save format: " ++ fmt) ;;;
  levels <- load_int "contourLevels" ;;
  print w ("   Contour levels: " ++ pretty levels) ;;;
  cmap <- load_str "colormap" ;;
  print w ("   Colormap: " ++ cmap).

(** [plt.rcParams]: matplotlib's global configuration object.  It exists
    before the module is loaded. *)
Definition rcParams : loc := 1%positive.

(** [obj.update(e)] on the plain dictionary object at [l]: the object is
    changed in place. *)
Definition update_object (l : loc) (e : pydict) : M unit :=
  fun s => match heap s !! l with
           | Some d => Ok tt (mkState (globals s) (<[l := dict_update d e]> (heap s))
                                      (next_loc s) (stdout s) (warnings s))
           | None => Raised SystemError s
           end.

(** [rcParams[key] = val]: matplotlib looks up the validator of the key,
    raises KeyError when there is none, passes the value through it,
    raises ValueError when the validator rejects the value, and stores
    what the validator returned. *)
Definition rc_setitem (w : world) (key : string) (val : value) (rc : pydict)
  : exn + pydict :=
  match validate w key with
  | None => inl KeyError
  | Some check =>
      match check val with
      | None => inl ValueError
      | Some cval => inr (<[key := cval]> rc)
      end
  end.

(** [for key, val in items: rcParams[key] = val].  The first rejection
    stops the loop; what was written before it stays written. *)
Fixpoint rc_setitems (w : world) (items : list (string * value)) (rc : pydict)
  : exn * pydict + pydict :=
  match items with
  | [] => inr rc
  | (key, val) :: rest =>
      match rc_setitem w key val rc with
      | inl e => inl (e, rc)
      | inr rc' => rc_setitems w rest rc'
      end
  end.

(** [obj.update(other)] on matplotlib's configuration object at [l]:
    [RcParams] inherits [update] from [MutableMapping], which sets the
    items of [other] one by one.  The map does not keep the order in which
    a Python dictionary was filled, so the loop here follows the map's own
    order of keys; this decides only which of several rejections is
    reported and what a rejected update has already written.  A completed
    update has written every item, in whatever order. *)
Definition update_rcParams (w : world) (l : loc) (other : pydict) : M unit :=
  fun s => match heap s !! l with
           | None => Raised SystemError s
           | Some rc =>
               match rc_setitems w (map_to_list other) rc with
               | inr rc' =>
                   Ok tt (mkState (globals s) (<[l := rc']> (heap s))
                                  (next_loc s) (stdout s) (warnings s))
               | inl (e, rc') =>
                   Raised e (mkState (globals s) (<[l := rc']> (heap s))
                                     (next_loc s) (stdout s) (warnings s))
               end
           end.

(** Line 151: [plt.rcParams.update(params)]. *)
Definition apply_params (w : world) : M unit :=
  params <- load_dict "params" ;;
  update_rcParams w rcParams params.

(** Everything the module defines before it looks at the host. *)
Definition definitions : M unit :=
  define_font_sizes ;;;
  define_base_params ;;;
  define_latex_params ;;;
  define_presets.

(** The whole module. *)
Definition module_body (w : world) : M unit :=
  definitions ;;;
  probe_and_report w ;;;
  merge_params ;;;
  print_summary w ;;;
  apply_params w.

(** The interpreter state in which the module starts: nothing is bound,
    and the heap holds matplotlib's configuration object with whatever the
    host program has put there. *)
Definition initial (rc0 : pydict) : state :=
  mkState ∅ {[ rcParams := rc0 ]} 2%positive [] [].

(** [import plot_config] on host [w] with prior configuration [rc0]. *)
Definition import_module (w : world) (rc0 : pydict) : outcome unit :=
  module_body w (initial rc0).

(** ** Observations on a state *)

(** The exception an import ended with, if it did. *)
Definition raised {A} (o : outcome A) : option exn :=
  match o with
  | Ok _ _ => None
  | Raised e _ => Some e
  end.

Definition flag_of (s : state) : option bool :=
  match globals s !! "LATEX_AVAILABLE" with
  | Some (GBool b) => Some b
  | _ => None
  end.

(** The mapping held by the dictionary a name is bound to. *)
Definition dict_at (x : string) (s : state) : option pydict :=
  match globals s !! x with
  | Some (GDict l) => heap s !! l
  | _ => None
  end.

Definition params_of (s : state) : option pydict := dict_at "params" s.

Definition rcParams_of (s : state) : option pydict := heap s !! rcParams.

(** The mappings the two displays denote once the size names are read. *)
Definition base_params_def : pydict := base_params_display 10 12 14.

Definition merged (flag : bool) : pydict :=
  if flag then merge_available base_params_def latex_params_display
  else merge_fallback base_params_def.

(** The keys each branch of the merge adds to the base keys. *)
Definition typeset_keys : gset string :=
  {[ "text.usetex"; "text.latex.preamble"; "font.family"; "font.serif";
     "mathtext.fontset" ]}.

Definition fallback_keys : gset string :=
  {[ "font.family"; "mathtext.fontset" ]}.

Definition branch_keys (flag : bool) : gset string :=
  if flag then typeset_keys else fallback_keys.

(** The keys two dictionaries have in common. *)
Definition colliding_keys (d e : pydict) : gset string := dom d ∩ dom e.

(** ** States the module passes through *)

Definition defined_globals : gmap string gval :=
  <["SAVE_DIR" := GStr ""]>
    (<["savefig_format" := GStr "png"]>
       (<["colormap" := GStr "bwr"]>
          (<["contourLevels" := GInt 100]>
             (<["latex_params" := GDict 3]>
                (<["base_params" := GDict 2]>
                   (<["LARGE_SIZE" := GInt 14]>
                      (<["MEDIUM_SIZE" := GInt 12]>
                         (<["SMALL_SIZE" := GInt 10]> ∅)))))))).

Definition defined_heap (rc0 : pydict) : gmap loc pydict :=
  <[3%positive := latex_params_display]>
    (<[2%positive := base_params_def]> {[ rcParams := rc0 ]}).

(** After line 92. *)
Definition defined_state (rc0 : pydict) : state :=
  mkState defined_globals (defined_heap rc0) 4 [] [].

Definition loaded_globals (flag : bool) : gmap string gval :=
  <["params" := GDict 4]> (<["LATEX_AVAILABLE" := GBool flag]> defined_globals).

Definition built_heap (flag : bool) (rc0 : pydict) : gmap loc pydict :=
  <[4%positive := merged flag]> (defined_heap rc0).

(** The items of a dictionary in the form matplotlib's validators give
    them; an item whose key or value is rejected has none. *)
Definition validated (w : world) (m : pydict) : pydict :=
  map_imap (fun key val => validate w key ≫= fun check => check val) m.

(** Every item of the dictionary passes validation. *)
Definition all_valid (w : world) (m : pydict) : Prop :=
  forall key val, m !! key = Some val ->
                  is_Some (validate w key ≫= fun check => check val).

Definition loaded_heap (w : world) (flag : bool) (rc0 : pydict) : gmap loc pydict :=
  <[rcParams := dict_update rc0 (validated w (merged flag))]> (built_heap flag rc0).

(** After line 151, when the probe answered [flag] and, if it found the
    executable, printed [path]. *)
Definition loaded (w : world) (flag : bool) (path : string) (rc0 : pydict) : state :=
  mkState (loaded_globals flag) (loaded_heap w flag rc0) 5
          ((if flag then found_line path else not_found_line)
             :: summary_lines flag "png" 100 "bwr")
          (if flag then [] else [fallback_warning]).

(** The two inline items of lines 134-135, as a mapping of their own. *)
Definition fallback_overrides : pydict :=
  dict_literal
    [ ("font.family", VStr "serif");
      ("mathtext.fontset", VStr "dejavuserif") ].

(** The state after lines 119-127 when the probe said no. *)
Definition reported_unavailable (s : state) : state :=
  mkState (<["LATEX_AVAILABLE" := GBool false]> (globals s)) (heap s) (next_loc s)
          (stdout s ++ [not_found_line]) (warnings s ++ [fallback_warning]).

(** The state after lines 119-127 when the probe found [path]. *)
Definition reported_available (path : string) (s : state) : state :=
  mkState (<["LATEX_AVAILABLE" := GBool true]> (globals s)) (heap s) (next_loc s)
          (stdout s ++ [found_line path]) (warnings s).

(** The state the probe leaves behind. *)
Definition reported (flag : bool) (path : string) (rc0 : pydict) : state :=
  mkState (<["LATEX_AVAILABLE" := GBool flag]> defined_globals) (defined_heap rc0) 4
          [if flag then found_line path else not_found_line]
          (if flag then [] else [fallback_warning]).

(** Everything before line 151. *)
Definition before_apply (w : world) : M unit :=
  definitions ;;;
  probe_and_report w ;;;
  merge_params ;;;
  print_summary w.

(** After line 148, when the probe answered [flag] and, if it found the
    executable, printed [path]. *)
Definition built (flag : bool) (path : string) (rc0 : pydict) : state :=
  mkState (loaded_globals flag) (built_heap flag rc0) 5
          ((if flag then found_line path else not_found_line)
             :: summary_lines flag "png" 100 "bwr")
          (if flag then [] else [fallback_warning]).

(** ** Hosts used as concrete instances *)

(** A standard output that accepts every line. *)
Definition open_console : list string -> string -> option stream_error :=
  fun _ _ => None.

(** A standard output whose encoding is ASCII. *)
Definition is_ascii (s : string) : bool :=
  forallb (fun a => (N_of_ascii a <? 128)%N) (list_ascii_of_string s).

Definition ascii_console : list string -> string -> option stream_error :=
  fun _ line => if is_ascii line then None else Some CannotEncode.

(** The warning filters as Python sets them: no warning is an error. *)
Definition default_filters : string -> warning_category -> bool :=
  fun _ _ => false.

(** The filters under [-W error]. *)
Definition error_filters : string -> warning_category -> bool :=
  fun _ _ => true.

(** Validators in the manner of matplotlib's.  On the values the module
    stores they return what matplotlib's own return: a number is stored
    as a float, a truth value as it is, a string as it is or, for a list
    of names, as a list of one string.  On other values they are only a
    sample: matplotlib accepts more spellings than these do. *)
Definition as_float (v : value) : option value :=
  match v with
  | VInt n => Some (VFloat (inject_Z n))
  | VFloat q => Some (VFloat q)
  | _ => None
  end.

Definition as_bool (v : value) : option value :=
  match v with
  | VBool b => Some (VBool b)
  | _ => None
  end.

Definition as_string (v : value) : option value :=
  match v with
  | VStr t => Some (VStr t)
  | _ => None
  end.

Definition as_string_list (v : value) : option value :=
  match v with
  | VStr t => Some (VList [t])
  | VList l => Some (VList l)
  | _ => None
  end.

Definition one_of (choices : list string) (v : value) : option value :=
  match v with
  | VStr t => if bool_decide (t ∈ choices) then Some (VStr t) else None
  | _ => None
  end.

(** A table of validators for the keys the module sets and one more key;
    any other key is unknown. *)
Definition sample_validators : gmap string (value -> option value) :=
  list_to_map
    [ ("figure.dpi", as_float); ("savefig.dpi", as_float);
      ("figure.facecolor", as_string); ("axes.facecolor", as_string);
      ("font.size", as_float); ("axes.titlesize", as_float);
      ("axes.labelsize", as_float); ("xtick.labelsize", as_float);
      ("ytick.labelsize", as_float); ("legend.fontsize", as_float);
      ("figure.titlesize", as_float);
      ("lines.linewidth", as_float); ("lines.markersize", as_float);
      ("patch.linewidth", as_float); ("axes.linewidth", as_float);
      ("xtick.direction", one_of ["out"; "in"; "inout"]);
      ("ytick.direction", one_of ["out"; "in"; "inout"]);
      ("xtick.top", as_bool); ("xtick.bottom", as_bool);
      ("ytick.left", as_bool); ("ytick.right", as_bool);
      ("xtick.minor.visible", as_bool); ("ytick.minor.visible", as_bool);
      ("axes.grid", as_bool); ("grid.alpha", as_float);
      ("axes.spines.top", as_bool); ("axes.spines.bottom", as_bool);
      ("axes.spines.left", as_bool); ("axes.spines.right", as_bool);
      ("text.usetex", as_bool); ("text.latex.preamble", as_string);
      ("font.family", as_string_list); ("font.serif", as_string_list);
      ("mathtext.fontset",
       one_of ["dejavusans"; "dejavuserif"; "cm"; "stix"; "stixsans"; "custom"]) ].

Definition sample_validate (key : string) : option (value -> option value) :=
  sample_validators !! key.

(** A host with an open console, the default filters and the sample
    validators, on which the lookup ends as given. *)
Definition host (lookup : run_outcome) : world :=
  mkWorld (fun _ _ => lookup) open_console default_filters sample_validate.

(** [which latex] prints a path and exits with 0. *)
Definition host_with_latex : world :=
  host (Completes (mkCompleted 0 "/usr/bin/latex
")).

(** [which latex] prints nothing and exits with 1. *)
Definition host_without_latex : world :=
  host (Completes (mkCompleted 1 "")).

(** There is no [which] on the search path. *)
Definition host_without_which : world :=
  host (Raises FileNotFoundError).

(** [which] is on the search path but may not be executed. *)
Definition host_with_locked_which : world :=
  host (Raises PermissionError).

(** [which latex] succeeds, but standard output is ASCII only. *)
Definition host_with_ascii_console : world :=
  mkWorld (fun _ _ => Completes (mkCompleted 0 "/usr/bin/latex
")) ascii_console default_filters sample_validate.

(** No latex, and Python was started with [-W error]. *)
Definition host_with_error_filters : world :=
  mkWorld (fun _ _ => Completes (mkCompleted 1 "")) open_console error_filters
          sample_validate.

(** No latex, and a matplotlib that does not know the key
    'mathtext.fontset'. *)
Definition host_with_old_matplotlib : world :=
  mkWorld (fun _ _ => Completes (mkCompleted 1 "")) open_console default_filters
          (fun key => if bool_decide (key = "mathtext.fontset") then None
                      else sample_validate key).

(** A configuration the host program had in place before the import. *)
Definition prior_rc : pydict :=
  dict_literal
    [ ("font.family", VList ["sans-serif"]);
      ("figure.dpi", VInt 72);
      ("axes.linewidth", VFloat 0.8) ].

(** Whether a string starts with a whitespace character. *)
Definition starts_with_space (s : string) : bool :=
  match s with
  | EmptyString => false
  | String a t =>
      is_space a ||
      match t with
      | EmptyString => false
      | String b t2 =>
          is_space2 a b ||
          match t2 with
          | EmptyString => false
          | String c _ => is_space3 a b c
          end
      end
  end.

(** The same on a string whose bytes are in reverse order. *)
Definition starts_with_reversed_space (s : string) : bool :=
  match s with
  | EmptyString => false
  | String c t =>
      is_space c ||
      match t with
      | EmptyString => false
      | String b t2 =>
          is_space2 b c ||
          match t2 with
          | EmptyString => false
          | String a _ => is_space3 a b c
          end
      end
  end.

(** Whether a string ends with a whitespace character. *)
Definition ends_with_space (s : string) : bool :=
  starts_with_reversed_space (String.rev s).

(** The keys of [base_params] whose values are the three size names. *)
Definition size_keys : gset string :=
  {[ "font.size"; "axes.titlesize"; "axes.labelsize"; "xtick.labelsize";
     "ytick.labelsize"; "legend.fontsize"; "figure.titlesize" ]}.

(** ** What the lookup tells the module *)

(** The answer of the probe on a host whose lookup it survives. *)
Definition lookup_available (w : world) : bool :=
  match w ["which"; "latex"] 5 with
  | Completes r => (returncode r =? 0)%Z
  | Raises _ => false
  end.

(** The path the probe prints on a host where the lookup succeeds. *)
Definition lookup_path (w : world) : string :=
  match w ["which"; "latex"] 5 with
  | Completes r => if (returncode r =? 0)%Z then strip (proc_stdout r) else ""
  | Raises _ => ""
  end.

(** The state after a line has been printed. *)
Definition printed (line : string) (s : state) : state :=
  mkState (globals s) (heap s) (next_loc s) (stdout s ++ [line]) (warnings s).

(** The state after a completed apply step that wrote [written] over [rc]. *)
Definition applied (written : pydict) (rc : pydict) (s : state) : state :=
  mkState (globals s) (<[rcParams := dict_update rc written]> (heap s))
          (next_loc s) (stdout s) (warnings s).

(** Whether a string consists of whitespace characters only. *)
Fixpoint only_space (s : string) : bool :=
  match s with
  | EmptyString => true
  | String a t =>
      is_space a && only_space t ||
      match t with
      | EmptyString => false
      | String b t2 =>
          is_space2 a b && only_space t2 ||
          match t2 with
          | EmptyString => false
          | String c t3 => is_space3 a b c && only_space t3
          end
      end
  end.

(** ** Properties of states that statements keep *)

(** A statement keeps a property of the state when the property holds
    after it, whether it returned or raised, if it held before. *)
Definition preserves {A} (P : state -> Prop) (m : M A) : Prop :=
  forall s, P s -> match m s with
                   | Ok _ s' => P s'
                   | Raised _ s' => P s'
                   end.

(** matplotlib's configuration object holds [rc], and the allocator will
    not hand out its location. *)
Definition keeps_rcParams (rc : pydict) (s : state) : Prop :=
  heap s !! rcParams = Some rc /\ (rcParams < next_loc s)%positive.

(** * Running the module *)

(** ** Monad steps *)

Lemma bind_Ok {A B} (m : M A) (k : A -> M B) s a s' :
  m s = Ok a s' -> bind m k s = k a s'.
Proof. intros H. unfold bind. now rewrite H. Qed.

Lemma bind_Ok_inv {A B} (m : M A) (k : A -> M B) s b s2 :
  bind m k s = Ok b s2 -> exists a s1, m s = Ok a s1 /\ k a s1 = Ok b s2.
Proof. unfold bind. destruct (m s) as [a s1|e s1]; [eauto | discriminate]. Qed.

Ltac run_step H := rewrite (bind_Ok _ _ _ _ _ H); cbv beta.

(** Closed equations are settled by evaluating both sides. *)
Ltac by_evaluation :=
  lazymatch goal with
  | |- ?x = ?y => vm_cast_no_check (@eq_refl _ y)
  end.

(** Closed decidable propositions are settled by running their decision
    procedure. *)
Ltac by_decision := apply (bool_decide_unpack _); vm_compute; exact I.

(** ** The statements, one by one *)

Section Statements.
Variable s : state.

Lemma load_int_run x n :
  globals s !! x = Some (GInt n) -> load_int x s = Ok n s.
Proof. intros H. unfold load_int, bind, load. now rewrite H. Qed.

Lemma load_str_run x t :
  globals s !! x = Some (GStr t) -> load_str x s = Ok t s.
Proof. intros H. unfold load_str, bind, load. now rewrite H. Qed.

Lemma load_bool_run x b :
  globals s !! x = Some (GBool b) -> load_bool x s = Ok b s.
Proof. intros H. unfold load_bool, bind, load. now rewrite H. Qed.

Lemma load_dict_run x d :
  dict_at x s = Some d -> load_dict x s = Ok d s.
Proof.
  unfold dict_at, load_dict, load_ref, bind, load, deref.
  destruct (globals s !! x) as [[ | | |l]|]; try discriminate.
  cbv beta iota delta [ret]. intros ->. reflexivity.
Qed.
End Statements.

Lemma print_Ok_inv (w : world) (line : string) (s s' : state) (u : unit) :
  print w line s = Ok u s' ->
  write_fails w (stdout s) line = None /\ s' = printed line s.
Proof.
  unfold print. destruct (write_fails w (stdout s) line); [discriminate|].
  now intros [= _ <-].
Qed.

Lemma print_run (w : world) (line : string) (s : state) :
  write_fails w (stdout s) line = None -> print w line s = Ok tt (printed line s).
Proof. intros H. unfold print. now rewrite H. Qed.

Lemma warn_Ok_inv (w : world) msg c (s s' : state) (u : unit) :
  warn w msg c s = Ok u s' ->
  warning_is_error w msg c = false /\
  s' = mkState (globals s) (heap s) (next_loc s) (stdout s) (warnings s ++ [(msg, c)]).
Proof.
  unfold warn. destruct (warning_is_error w msg c); [discriminate|].
  now intros [= _ <-].
Qed.

(** What standard output raises is none of the classes the probe catches. *)
Lemma stream_exn_not_caught (e : stream_error) : probe_caught (stream_exn e) = false.
Proof. destruct e; reflexivity. Qed.

(** The probe, with the [try] resolved. *)
Lemma check_latex_available_run (w : world) (s : state) :
  check_latex_available w s =
  match w ["which"; "latex"] 5 with
  | Completes r =>
      if (returncode r =? 0)%Z
      then match write_fails w (stdout s) (found_line (strip (proc_stdout r))) with
           | Some e => Raised (stream_exn e) s
           | None => Ok true (printed (found_line (strip (proc_stdout r))) s)
           end
      else Ok false s
  | Raises e => if probe_caught e then Ok false s else Raised e s
  end.
Proof.
  unfold check_latex_available, try_except, bind, subprocess_run.
  destruct (run w _ _) as [r|e]; cbv beta iota delta [ret raise].
  - destruct (returncode r =? 0)%Z; [|reflexivity].
    unfold print.
    destruct (write_fails w _ _) as [e|]; [|reflexivity].
    now rewrite stream_exn_not_caught.
  - destruct (probe_caught e); reflexivity.
Qed.

(** Lines 119-127, when they complete: the flag is the answer of the
    lookup, and the status line and the warning are those of that answer. *)
Lemma probe_and_report_Ok (w : world) (s s' : state) :
  probe_and_report w s = Ok tt s' ->
  s' = (if lookup_available w
        then reported_available (lookup_path w) s
        else reported_unavailable s).
Proof.
  unfold probe_and_report. intros H.
  apply bind_Ok_inv in H as (available & s1 & Hprobe & H).
  unfold bind at 1, assign at 1 in H.
  erewrite bind_Ok in H by (apply load_bool_run; cbn [globals]; apply lookup_insert_eq).
  cbv beta in H.
  rewrite check_latex_available_run in Hprobe.
  unfold lookup_available, lookup_path.
  destruct (run w _ _) as [r|e].
  - destruct (returncode r =? 0)%Z.
    + destruct (write_fails w _ _); [discriminate|].
      injection Hprobe as <- <-. cbn [negb] in H.
      now injection H as <-.
    + injection Hprobe as <- <-. cbn [negb] in H.
      apply bind_Ok_inv in H as (u & s2 & Hp & Hw).
      apply print_Ok_inv in Hp as [_ ->].
      apply warn_Ok_inv in Hw as [_ ->]. reflexivity.
  - destruct (probe_caught e); [|discriminate].
    injection Hprobe as <- <-. cbn [negb] in H.
    apply bind_Ok_inv in H as (u & s2 & Hp & Hw).
    apply print_Ok_inv in Hp as [_ ->].
    apply warn_Ok_inv in Hw as [_ ->]. reflexivity.
Qed.

Lemma merge_params_available (s : state) (base latex : pydict) :
  flag_of s = Some true ->
  dict_at "base_params" s = Some base ->
  dict_at "latex_params" s = Some latex ->
  merge_params s =
  Ok tt (mkState (<["params" := GDict (next_loc s)]> (globals s))
                 (<[next_loc s := merge_available base latex]> (heap s))
                 (Pos.succ (next_loc s)) (stdout s) (warnings s)).
Proof.
  intros Hf Hb Hl. unfold merge_params.
  assert (Hf' : globals s !! "LATEX_AVAILABLE" = Some (GBool true)).
  { unfold flag_of in Hf.
    destruct (globals s !! "LATEX_AVAILABLE") as [[ | |b| ]|]; congruence. }
  run_step (load_bool_run s _ _ Hf').
  run_step (load_dict_run s _ _ Hb).
  run_step (load_dict_run s _ _ Hl).
  reflexivity.
Qed.

Lemma merge_params_fallback (s : state) (base : pydict) :
  flag_of s = Some false ->
  dict_at "base_params" s = Some base ->
  merge_params s =
  Ok tt (mkState (<["params" := GDict (next_loc s)]> (globals s))
                 (<[next_loc s := merge_fallback base]> (heap s))
                 (Pos.succ (next_loc s)) (stdout s) (warnings s)).
Proof.
  intros Hf Hb. unfold merge_params.
  assert (Hf' : globals s !! "LATEX_AVAILABLE" = Some (GBool false)).
  { unfold flag_of in Hf.
    destruct (globals s !! "LATEX_AVAILABLE") as [[ | |b| ]|]; congruence. }
  run_step (load_bool_run s _ _ Hf').
  run_step (load_dict_run s _ _ Hb).
  reflexivity.
Qed.

(** One [print] of the summary, when what follows it completes. *)
Lemma print_then_Ok_inv {A} (w : world) (line : string) (k : M A) (s s' : state) (a : A) :
  (print w line ;;; k) s = Ok a s' -> k (printed line s) = Ok a s'.
Proof.
  intros H. apply bind_Ok_inv in H as (u & s1 & Hp & H).
  apply print_Ok_inv in Hp as [_ ->]. exact H.
Qed.

(** Lines 144-148, when they complete. *)
Lemma print_summary_Ok (w : world) (s s' : state) flag fmt levels cmap :
  globals s !! "LATEX_AVAILABLE" = Some (GBool flag) ->
  globals s !! "savefig_format" = Some (GStr fmt) ->
  globals s !! "contourLevels" = Some (GInt levels) ->
  globals s !! "colormap" = Some (GStr cmap) ->
  print_summary w s = Ok tt s' ->
  s' = mkState (globals s) (heap s) (next_loc s)
               (stdout s ++ summary_lines flag fmt levels cmap) (warnings s).
Proof.
  intros Hf Hfmt Hlev Hc H. unfold print_summary in H.
  apply print_then_Ok_inv in H.
  erewrite bind_Ok in H by (apply load_bool_run; exact Hf). cbv beta in H.
  apply print_then_Ok_inv in H.
  erewrite bind_Ok in H by (apply load_str_run; exact Hfmt). cbv beta in H.
  apply print_then_Ok_inv in H.
  erewrite bind_Ok in H by (apply load_int_run; exact Hlev). cbv beta in H.
  apply print_then_Ok_inv in H.
  erewrite bind_Ok in H by (apply load_str_run; exact Hc). cbv beta in H.
  apply print_Ok_inv in H as [_ ->].
  unfold printed, summary_lines. cbn [globals heap next_loc stdout warnings].
  rewrite <- !app_assoc. reflexivity.
Qed.

(** ** Updating matplotlib's configuration *)

Lemma validated_lookup (w : world) (m : pydict) (key : string) :
  validated w m !! key = m !! key ≫= fun val => validate w key ≫= fun check => check val.
Proof. unfold validated. apply map_lookup_imap. Qed.

(** A completed loop has validated every item and written it in its
    validated form; it has written nothing else. *)
Lemma rc_setitems_inr (w : world) (items : list (string * value)) (rc rc' : pydict) :
  NoDup items.*1 ->
  rc_setitems w items rc = inr rc' ->
  (forall key val, (key, val) ∈ items ->
     exists cval, (validate w key ≫= fun check => check val) = Some cval /\
                  rc' !! key = Some cval) /\
  (forall key, key ∉ items.*1 -> rc' !! key = rc !! key).
Proof.
  revert rc. induction items as [|[k0 v0] items IH]; intros rc Hnd Hrun.
  - injection Hrun as <-. split; [|reflexivity].
    intros key val H. now apply elem_of_nil in H.
  - cbn [rc_setitems] in Hrun. unfold rc_setitem in Hrun.
    cbn [fmap list_fmap fst] in Hnd. apply NoDup_cons in Hnd as [Hk0 Hnd].
    destruct (validate w k0) as [check|] eqn:Hcheck; [|discriminate].
    destruct (check v0) as [c0|] eqn:Hc0; [|discriminate].
    destruct (IH _ Hnd Hrun) as [IH1 IH2]. split.
    + intros key val Hin. apply elem_of_cons in Hin as [[= -> ->]|Hin].
      * exists c0. split; [now rewrite Hcheck|].
        rewrite (IH2 _ Hk0). apply lookup_insert_eq.
      * now apply IH1.
    + intros key Hkey. cbn [fmap list_fmap fst] in Hkey.
      apply not_elem_of_cons in Hkey as [Hne Hkey].
      rewrite (IH2 _ Hkey). now apply lookup_insert_ne.
Qed.

(** The loop completes when every item passes validation. *)
Lemma rc_setitems_valid (w : world) (items : list (string * value)) (rc : pydict) :
  (forall key val, (key, val) ∈ items ->
                   is_Some (validate w key ≫= fun check => check val)) ->
  exists rc', rc_setitems w items rc = inr rc'.
Proof.
  revert rc. induction items as [|[k0 v0] items IH]; intros rc Hall.
  - now exists rc.
  - cbn [rc_setitems]. unfold rc_setitem.
    destruct (Hall k0 v0) as [c0 Hc0]; [apply list_elem_of_here|].
    destruct (validate w k0) as [check|]; [|discriminate].
    cbn in Hc0. rewrite Hc0. apply IH.
    intros key val Hin. apply Hall. now apply list_elem_of_further.
Qed.

(** A completed update of the configuration [rc] with the dictionary [m]:
    every item of [m] was valid, and the configuration holds the validated
    items of [m] over what it held. *)
Lemma rc_update_Ok (w : world) (m rc rc' : pydict) :
  rc_setitems w (map_to_list m) rc = inr rc' ->
  all_valid w m /\ rc' = dict_update rc (validated w m).
Proof.
  intros Hrun.
  destruct (rc_setitems_inr w _ _ _ (NoDup_fst_map_to_list m) Hrun) as [H1 H2].
  split.
  - intros key val Hkey. apply elem_of_map_to_list in Hkey.
    destruct (H1 _ _ Hkey) as (cval & -> & _). eauto.
  - apply map_eq. intros key. unfold dict_update.
    destruct (m !! key) as [val|] eqn:Hkey.
    + destruct (H1 key val) as (cval & Hc & ->); [now apply elem_of_map_to_list|].
      symmetry. apply lookup_union_Some_l.
      rewrite validated_lookup, Hkey. exact Hc.
    + rewrite lookup_union_r by (now rewrite validated_lookup, Hkey).
      apply H2. intros Hin. apply list_elem_of_fmap in Hin as ([k v] & -> & Hin).
      apply elem_of_map_to_list in Hin. cbn in Hkey. congruence.
Qed.

Lemma rc_update_run (w : world) (m rc : pydict) :
  all_valid w m ->
  rc_setitems w (map_to_list m) rc = inr (dict_update rc (validated w m)).
Proof.
  intros Hall.
  destruct (rc_setitems_valid w (map_to_list m) rc) as [rc' Hrun].
  { intros key val Hin. apply Hall. now apply elem_of_map_to_list. }
  rewrite Hrun. f_equal. now apply rc_update_Ok.
Qed.

(** Line 151, when it completes. *)
Lemma apply_params_Ok (w : world) (s s' : state) (m rc : pydict) :
  params_of s = Some m ->
  rcParams_of s = Some rc ->
  apply_params w s = Ok tt s' ->
  all_valid w m /\ s' = applied (validated w m) rc s.
Proof.
  intros Hm Hrc H. unfold apply_params in H.
  rewrite (bind_Ok _ _ _ _ _ (load_dict_run s _ _ Hm)) in H. cbv beta in H.
  unfold update_rcParams in H. unfold rcParams_of in Hrc. rewrite Hrc in H.
  destruct (rc_setitems w (map_to_list m) rc) as [[e rc']|rc'] eqn:Hrun;
    [discriminate|].
  apply rc_update_Ok in Hrun as [Hall ->].
  split; [exact Hall|]. now injection H as <-.
Qed.

(** Line 151 completes when every item of params is valid. *)
Lemma apply_params_run (w : world) (s : state) (m rc : pydict) :
  params_of s = Some m ->
  rcParams_of s = Some rc ->
  all_valid w m ->
  apply_params w s = Ok tt (applied (validated w m) rc s).
Proof.
  intros Hm Hrc Hall. unfold apply_params.
  run_step (load_dict_run s _ _ Hm).
  unfold update_rcParams. unfold rcParams_of in Hrc. rewrite Hrc.
  now rewrite (rc_update_run w m rc Hall).
Qed.

(** ** The module as a whole *)

(** Lines 18-92 never look into the host's configuration object. *)
Lemma definitions_run (rc0 : pydict) :
  definitions (initial rc0) = Ok tt (defined_state rc0).
Proof. by_evaluation. Qed.

Lemma reported_dicts (flag : bool) (path : string) (rc0 : pydict) :
  flag_of (reported flag path rc0) = Some flag /\
  dict_at "base_params" (reported flag path rc0) = Some base_params_def /\
  dict_at "latex_params" (reported flag path rc0) = Some latex_params_display.
Proof. destruct flag; repeat apply conj; by_evaluation. Qed.

Lemma reported_after_definitions (flag : bool) (path : string) (rc0 : pydict) :
  (if flag then reported_available path (defined_state rc0)
   else reported_unavailable (defined_state rc0)) = reported flag path rc0.
Proof. destruct flag; reflexivity. Qed.

(** Lines 130-148 on the state the probe leaves behind, when they
    complete. *)
Lemma merge_and_summary_Ok (w : world) (flag : bool) (path : string) (rc0 : pydict)
    (s' : state) :
  (merge_params ;;; print_summary w) (reported flag path rc0) = Ok tt s' ->
  s' = built flag path rc0.
Proof.
  intros H.
  destruct (reported_dicts flag path rc0) as (Hf & Hb & Hl).
  destruct flag.
  - erewrite bind_Ok in H by (apply merge_params_available; eassumption).
    cbv beta in H.
    apply (print_summary_Ok w _ _ true "png" 100 "bwr") in H;
      [|by_evaluation..].
    rewrite H. by_evaluation.
  - erewrite bind_Ok in H by (apply merge_params_fallback; eassumption).
    cbv beta in H.
    apply (print_summary_Ok w _ _ false "png" 100 "bwr") in H;
      [|by_evaluation..].
    rewrite H. by_evaluation.
Qed.

Section Built.
Variables (flag : bool) (path : string) (rc0 : pydict).

Lemma built_flag : flag_of (built flag path rc0) = Some flag.
Proof. destruct flag; by_evaluation. Qed.

Lemma built_global (x : string) :
  globals (built flag path rc0) !! x = loaded_globals flag !! x.
Proof. reflexivity. Qed.

Lemma built_params : params_of (built flag path rc0) = Some (merged flag).
Proof.
  unfold params_of, dict_at, built, loaded_globals, built_heap. cbn [globals heap].
  rewrite lookup_insert_eq. apply lookup_insert_eq.
Qed.

Lemma built_rcParams : rcParams_of (built flag path rc0) = Some rc0.
Proof.
  unfold rcParams_of, built, built_heap, defined_heap. cbn [heap].
  rewrite !lookup_insert_ne by done. apply lookup_singleton_eq.
Qed.

End Built.

(** Line 151 on the state lines 18-148 leave behind, when every item of
    the merged configuration is valid. *)
Lemma apply_params_built (w : world) (flag : bool) (path : string) (rc0 : pydict) :
  all_valid w (merged flag) ->
  apply_params w (built flag path rc0) = Ok tt (loaded w flag path rc0).
Proof.
  intros Hall.
  apply (apply_params_run w _ _ _ (built_params flag path rc0)
           (built_rcParams flag path rc0) Hall).
Qed.

(** The module is what comes before line 151, then line 151. *)
Lemma module_body_split (w : world) (s : state) :
  module_body w s = (before_apply w ;;; apply_params w) s.
Proof.
  unfold module_body, before_apply, bind.
  destruct (definitions s); [|reflexivity].
  destruct (probe_and_report w _); [|reflexivity].
  destruct (merge_params _); [|reflexivity].
  destruct (print_summary w _); reflexivity.
Qed.

(** Lines 18-148, when they complete. *)
Lemma before_apply_Ok (w : world) (rc0 : pydict) (s : state) :
  before_apply w (initial rc0) = Ok tt s ->
  s = built (lookup_available w) (lookup_path w) rc0.
Proof.
  unfold before_apply. intros H.
  rewrite (bind_Ok _ _ _ _ _ (definitions_run rc0)) in H. cbv beta in H.
  apply bind_Ok_inv in H as ([] & s2 & Hprobe & H).
  apply probe_and_report_Ok in Hprobe.
  rewrite reported_after_definitions in Hprobe. subst s2.
  now apply merge_and_summary_Ok in H.
Qed.

(** ** What a loaded module holds *)

(** The states before and after line 151 of a completed import. *)
Lemma import_module_steps (w : world) (rc0 : pydict) (s : state) :
  import_module w rc0 = Ok tt s ->
  before_apply w (initial rc0)
    = Ok tt (built (lookup_available w) (lookup_path w) rc0) /\
  apply_params w (built (lookup_available w) (lookup_path w) rc0) = Ok tt s /\
  all_valid w (merged (lookup_available w)) /\
  s = loaded w (lookup_available w) (lookup_path w) rc0.
Proof.
  unfold import_module. rewrite module_body_split. intros H.
  apply bind_Ok_inv in H as ([] & s0 & Hpre & Happly).
  pose proof (before_apply_Ok _ _ _ Hpre) as ->.
  split; [exact Hpre|]. split; [exact Happly|].
  apply (apply_params_Ok w _ _ _ _ (built_params _ _ _) (built_rcParams _ _ _))
    in Happly as [Hall ->].
  split; [exact Hall | reflexivity].
Qed.

Lemma import_module_loaded (w : world) (rc0 : pydict) (s : state) :
  import_module w rc0 = Ok tt s ->
  s = loaded w (lookup_available w) (lookup_path w) rc0.
Proof. intros H. apply (import_module_steps _ _ _ H). Qed.

Lemma import_module_Ok (w : world) (rc0 : pydict) (s : state) :
  import_module w rc0 = Ok tt s -> exists flag path, s = loaded w flag path rc0.
Proof. intros H. pose proof (import_module_loaded _ _ _ H). eauto. Qed.

Section Loaded.
Variables (w : world) (flag : bool) (path : string) (rc0 : pydict).

Lemma loaded_flag : flag_of (loaded w flag path rc0) = Some flag.
Proof. destruct flag; by_evaluation. Qed.

Lemma loaded_global (x : string) :
  globals (loaded w flag path rc0) !! x = loaded_globals flag !! x.
Proof. reflexivity. Qed.

Lemma loaded_params : params_of (loaded w flag path rc0) = Some (merged flag).
Proof.
  unfold params_of, dict_at, loaded, loaded_globals, loaded_heap, built_heap.
  cbn [globals heap].
  rewrite lookup_insert_eq, lookup_insert_ne by done. apply lookup_insert_eq.
Qed.

Lemma loaded_rcParams :
  rcParams_of (loaded w flag path rc0)
  = Some (dict_update rc0 (validated w (merged flag))).
Proof. unfold rcParams_of, loaded, loaded_heap. cbn [heap]. apply lookup_insert_eq. Qed.

Lemma loaded_base_params :
  globals (loaded w flag path rc0) !! "base_params" = Some (GDict 2) /\
  dict_at "base_params" (loaded w flag path rc0) = Some base_params_def.
Proof.
  assert (H : loaded_globals flag !! "base_params" = Some (GDict 2))
    by (destruct flag; by_evaluation).
  split; [exact H|].
  unfold dict_at. rewrite loaded_global, H.
  unfold loaded, loaded_heap, built_heap, defined_heap. cbn [heap].
  rewrite !lookup_insert_ne by done. apply lookup_insert_eq.
Qed.

Lemma loaded_latex_params :
  globals (loaded w flag path rc0) !! "latex_params" = Some (GDict 3) /\
  dict_at "latex_params" (loaded w flag path rc0) = Some latex_params_display.
Proof.
  assert (H : loaded_globals flag !! "latex_params" = Some (GDict 3))
    by (destruct flag; by_evaluation).
  split; [exact H|].
  unfold dict_at. rewrite loaded_global, H.
  unfold loaded, loaded_heap, built_heap, defined_heap. cbn [heap].
  rewrite !lookup_insert_ne by done. apply lookup_insert_eq.
Qed.

End Loaded.
(** ** Facts about the three displays *)

Lemma base_typeset_disjoint : base_params_def ##ₘ latex_params_display.
Proof. by_decision. Qed.

Lemma base_lacks_font_family : base_params_def !! "font.family" = None.
Proof. by_evaluation. Qed.

Lemma base_lacks_mathtext_fontset : base_params_def !! "mathtext.fontset" = None.
Proof. by_evaluation. Qed.

Lemma dict_update_empty (d : pydict) : dict_update ∅ d = d.
Proof. unfold dict_update. apply (right_id_L ∅ (∪)). Qed.

Lemma typeset_keys_dom : dom latex_params_display = typeset_keys.
Proof. by_decision. Qed.

Lemma fallback_keys_dom : dom fallback_overrides = fallback_keys.
Proof. by_decision. Qed.

Lemma merged_dom (flag : bool) :
  dom (merged flag) = dom base_params_def ∪ branch_keys flag.
Proof. destruct flag; by_decision. Qed.

Lemma base_in_merged (flag : bool) (k : string) (v : value) :
  base_params_def !! k = Some v -> merged flag !! k = Some v.
Proof.
  intros Hk. destruct flag; unfold merged, merge_available, merge_fallback, dict_set.
  - rewrite dict_update_empty. unfold dict_update.
    rewrite lookup_union_r; [exact Hk|].
    pose proof base_typeset_disjoint as Hd.
    destruct (latex_params_display !! k) eqn:E; [|reflexivity].
    exfalso. exact (proj1 (map_disjoint_spec _ _) Hd k _ _ Hk E).
  - rewrite dict_update_empty.
    rewrite !lookup_insert_ne; [exact Hk| |].
    + intros <-. rewrite base_lacks_font_family in Hk. discriminate.
    + intros <-. rewrite base_lacks_mathtext_fontset in Hk. discriminate.
Qed.

(** ** Concrete runs *)

Example strip_path : strip "  /usr/bin/latex
" = "/usr/bin/latex".
Proof. reflexivity. Qed.

Example strip_inner_space : strip "	a b  " = "a b".
Proof. reflexivity. Qed.

(** A no-break space (U+00A0) in front and an em space (U+2003) behind. *)
Example strip_unicode :
  strip (String (ascii_of_N 194) (String (ascii_of_N 160)
           ("x" ++ String (ascii_of_N 226) (String (ascii_of_N 128)
                     (String (ascii_of_N 131) EmptyString)))))
  = "x".
Proof. reflexivity. Qed.

Example strip_blank : strip " 	 " = "".
Proof. reflexivity. Qed.

Example probe_found :
  check_latex_available host_with_latex (initial ∅)
  = Ok true (mkState ∅ {[ rcParams := ∅ ]} 2 ["✓ LaTeX found at: /usr/bin/latex"] []).
Proof. by_evaluation. Qed.

Example probe_exit_1 :
  check_latex_available host_without_latex (initial ∅) = Ok false (initial ∅).
Proof. by_evaluation. Qed.

Example probe_no_which :
  check_latex_available host_without_which (initial ∅) = Ok false (initial ∅).
Proof. by_evaluation. Qed.

Example probe_timeout :
  check_latex_available (host (Raises TimeoutExpired)) (initial ∅)
  = Ok false (initial ∅).
Proof. by_evaluation. Qed.

Example import_with_latex_prints :
  stdout (loaded host_with_latex true "/usr/bin/latex" prior_rc) =
  [ "✓ LaTeX found at: /usr/bin/latex";
    "🎨 Scientific plotting configuration loaded";
    "   LaTeX support: ✓ Enabled";
    "   Default save format: png";
    "   Contour levels: 100";
    "   Colormap: bwr" ].
Proof. by_evaluation. Qed.

Example import_without_latex_prints :
  stdout (loaded host_without_latex false "" prior_rc) =
  [ "✗ LaTeX not found in PATH";
    "🎨 Scientific plotting configuration loaded";
    "   LaTeX support: ✗ Disabled";
    "   Default save format: png";
    "   Contour levels: 100";
    "   Colormap: bwr" ].
Proof. by_evaluation. Qed.

(** The configuration holds the validated form of what params holds. *)
Example import_overwrites_prior_font_family :
  import_module host_without_latex prior_rc
    = Ok tt (loaded host_without_latex false "" prior_rc) /\
  prior_rc !! "font.family" = Some (VList ["sans-serif"]) /\
  (params_of (loaded host_without_latex false "" prior_rc) ≫= (.!! "font.family"))
    = Some (VStr "serif") /\
  (rcParams_of (loaded host_without_latex false "" prior_rc) ≫= (.!! "font.family"))
    = Some (VList ["serif"]) /\
  (rcParams_of (loaded host_without_latex false "" prior_rc) ≫= (.!! "figure.dpi"))
    = Some (VFloat 100) /\
  (rcParams_of (loaded host_without_latex false "" prior_rc) ≫= (.!! "axes.linewidth"))
    = Some (VFloat 0.8).
Proof. repeat apply conj; by_evaluation. Qed.

Example import_with_locked_which_fails :
  import_module host_with_locked_which prior_rc
  = Raised PermissionError (defined_state prior_rc).
Proof. by_evaluation. Qed.

(** On an ASCII console the first line the module prints cannot be
    written. *)
Example import_with_ascii_console_fails :
  import_module host_with_ascii_console prior_rc
  = Raised UnicodeEncodeError (defined_state prior_rc).
Proof. by_evaluation. Qed.

(** Under [-W error] the fallback warning ends the import, after the flag
    was bound and the status line printed. *)
Example import_with_error_filters_fails :
  import_module host_with_error_filters prior_rc
  = Raised (WarningError UserWarning)
      (printed not_found_line
         (mkState (<["LATEX_AVAILABLE" := GBool false]> defined_globals)
                  (defined_heap prior_rc) 4 [] [])).
Proof. by_evaluation. Qed.

(** A key matplotlib does not know ends the import at line 151. *)
Example import_with_old_matplotlib_fails :
  raised (import_module host_with_old_matplotlib prior_rc) = Some KeyError.
Proof. by_evaluation. Qed.

(** * The properties of the specification *)

(** C1.  In every run whose availability flag is false, the merged
    configuration maps 'font.family' to 'serif' and 'mathtext.fontset' to
    'dejavuserif', and has none of the keys 'text.usetex',
    'text.latex.preamble' and 'font.serif'. *)
Theorem fallback_configuration (w : world) (rc0 : pydict) (s : state) :
  import_module w rc0 = Ok tt s ->
  flag_of s = Some false ->
  exists m,
    params_of s = Some m /\
    m !! "font.family" = Some (VStr "serif") /\
    m !! "mathtext.fontset" = Some (VStr "dejavuserif") /\
    m !! "text.usetex" = None /\
    m !! "text.latex.preamble" = None /\
    m !! "font.serif" = None.
Proof.
  intros Hrun Hflag.
  destruct (import_module_Ok _ _ _ Hrun) as (flag & path & ->).
  rewrite loaded_flag in Hflag. injection Hflag as ->.
  exists (merged false). split; [apply loaded_params|].
  repeat apply conj; by_evaluation.
Qed.

Lemma fallback_configuration_witness :
  import_module host_without_latex prior_rc = Ok tt (loaded host_without_latex false "" prior_rc) /\
  flag_of (loaded host_without_latex false "" prior_rc) = Some false /\
  exists m,
    params_of (loaded host_without_latex false "" prior_rc) = Some m /\
    m !! "font.family" = Some (VStr "serif") /\
    m !! "mathtext.fontset" = Some (VStr "dejavuserif") /\
    m !! "text.usetex" = None /\
    m !! "text.latex.preamble" = None /\
    m !! "font.serif" = None.
Proof.
  split; [by_evaluation|].
  split; [by_evaluation|].
  apply (fallback_configuration host_without_latex prior_rc);
    by_evaluation.
Defined.

(** C2.  In every run whose availability flag is true, the merged
    configuration holds the five typeset keys with their literal values:
    'text.usetex' is True, 'font.family' is 'serif', 'mathtext.fontset' is
    'cm', 'text.latex.preamble' is '\usepackage{amsmath}' and 'font.serif'
    is the list ['Computer Modern Roman']. *)
Theorem typeset_configuration (w : world) (rc0 : pydict) (s : state) :
  import_module w rc0 = Ok tt s ->
  flag_of s = Some true ->
  exists m,
    params_of s = Some m /\
    m !! "text.usetex" = Some (VBool true) /\
    m !! "font.family" = Some (VStr "serif") /\
    m !! "mathtext.fontset" = Some (VStr "cm") /\
    m !! "text.latex.preamble" = Some (VStr "\usepackage{amsmath}") /\
    m !! "font.serif" = Some (VList ["Computer Modern Roman"]).
Proof.
  intros Hrun Hflag.
  destruct (import_module_Ok _ _ _ Hrun) as (flag & path & ->).
  rewrite loaded_flag in Hflag. injection Hflag as ->.
  exists (merged true). split; [apply loaded_params|].
  repeat apply conj; by_evaluation.
Qed.

Lemma typeset_configuration_witness :
  import_module host_with_latex prior_rc
    = Ok tt (loaded host_with_latex true "/usr/bin/latex" prior_rc) /\
  flag_of (loaded host_with_latex true "/usr/bin/latex" prior_rc) = Some true /\
  exists m,
    params_of (loaded host_with_latex true "/usr/bin/latex" prior_rc) = Some m /\
    m !! "text.usetex" = Some (VBool true) /\
    m !! "font.family" = Some (VStr "serif") /\
    m !! "mathtext.fontset" = Some (VStr "cm") /\
    m !! "text.latex.preamble" = Some (VStr "\usepackage{amsmath}") /\
    m !! "font.serif" = Some (VList ["Computer Modern Roman"]).
Proof.
  split; [by_evaluation|].
  split; [by_evaluation|].
  apply (typeset_configuration host_with_latex prior_rc);
    by_evaluation.
Defined.

(** C3.  Whatever the availability flag, the merged configuration holds
    every key of the base parameter set with its base value, and its key
    set is exactly the base keys together with the keys of the branch
    taken: the five typeset keys (the keys of latex_params) when
    available, the two fallback keys when not. *)
Theorem merged_keys (w : world) (rc0 : pydict) (s : state) :
  import_module w rc0 = Ok tt s ->
  exists flag base latex m,
    flag_of s = Some flag /\
    dict_at "base_params" s = Some base /\
    dict_at "latex_params" s = Some latex /\
    params_of s = Some m /\
    (forall k v, base !! k = Some v -> m !! k = Some v) /\
    dom m = dom base ∪ branch_keys flag /\
    branch_keys true = dom latex /\
    branch_keys false = dom fallback_overrides.
Proof.
  intros Hrun.
  destruct (import_module_Ok _ _ _ Hrun) as (flag & path & ->).
  exists flag, base_params_def, latex_params_display, (merged flag).
  split; [apply loaded_flag|].
  split; [apply loaded_base_params|].
  split; [apply loaded_latex_params|].
  split; [apply loaded_params|].
  split; [apply base_in_merged|].
  split; [apply merged_dom|].
  split; [symmetry; apply typeset_keys_dom | symmetry; apply fallback_keys_dom].
Qed.

Lemma merged_keys_witness :
  import_module host_without_which prior_rc = Ok tt (loaded host_without_latex false "" prior_rc) /\
  exists flag base latex m,
    flag_of (loaded host_without_latex false "" prior_rc) = Some flag /\
    dict_at "base_params" (loaded host_without_latex false "" prior_rc) = Some base /\
    dict_at "latex_params" (loaded host_without_latex false "" prior_rc) = Some latex /\
    params_of (loaded host_without_latex false "" prior_rc) = Some m /\
    (forall k v, base !! k = Some v -> m !! k = Some v) /\
    dom m = dom base ∪ branch_keys flag /\
    branch_keys true = dom latex /\
    branch_keys false = dom fallback_overrides.
Proof.
  split; [by_evaluation|].
  apply (merged_keys host_without_which prior_rc). by_evaluation.
Defined.

(** C6.  Whatever the availability flag, the module binds contourLevels to
    100, colormap to 'bwr', savefig_format to 'png' and SAVE_DIR to the
    empty string. *)
Theorem presets (w : world) (rc0 : pydict) (s : state) :
  import_module w rc0 = Ok tt s ->
  globals s !! "contourLevels" = Some (GInt 100) /\
  globals s !! "colormap" = Some (GStr "bwr") /\
  globals s !! "savefig_format" = Some (GStr "png") /\
  globals s !! "SAVE_DIR" = Some (GStr "").
Proof.
  intros Hrun.
  destruct (import_module_Ok _ _ _ Hrun) as (flag & path & ->).
  rewrite !loaded_global.
  destruct flag; repeat apply conj; by_evaluation.
Qed.

Lemma presets_witness :
  import_module host_with_latex prior_rc
    = Ok tt (loaded host_with_latex true "/usr/bin/latex" prior_rc) /\
  globals (loaded host_with_latex true "/usr/bin/latex" prior_rc) !! "contourLevels" = Some (GInt 100) /\
  globals (loaded host_with_latex true "/usr/bin/latex" prior_rc) !! "colormap" = Some (GStr "bwr") /\
  globals (loaded host_with_latex true "/usr/bin/latex" prior_rc) !! "savefig_format" = Some (GStr "png") /\
  globals (loaded host_with_latex true "/usr/bin/latex" prior_rc) !! "SAVE_DIR" = Some (GStr "").
Proof.
  split; [by_evaluation|].
  apply (presets host_with_latex prior_rc). by_evaluation.
Defined.

(** C4.  The probe does not keep every failure inside.  The [except]
    clause of line 115 names three classes, and an exception of any other
    class leaves the probe: when [which] is on the search path but may not
    be executed, [subprocess.run] raises PermissionError and the probe
    raises it instead of returning False; and when standard output cannot
    encode the check mark, the [print] of line 111, which is inside the
    [try], raises UnicodeEncodeError although the lookup exited with
    code 0.  So it is not the case that no error is ever raised out of
    the probe. *)
Theorem probe_lets_errors_escape :
  check_latex_available host_with_locked_which (initial ∅)
    = Raised PermissionError (initial ∅) /\
  check_latex_available host_with_ascii_console (initial ∅)
    = Raised UnicodeEncodeError (initial ∅) /\
  ~ (forall (w : world) (s : state),
       exists b s', check_latex_available w s = Ok b s').
Proof.
  assert (H : check_latex_available host_with_locked_which (initial ∅)
              = Raised PermissionError (initial ∅)) by by_evaluation.
  split; [exact H|]. split; [by_evaluation|].
  intros Hall. destruct (Hall host_with_locked_which (initial ∅)) as (b & s' & Hb).
  rewrite H in Hb. discriminate Hb.
Qed.

(** ** Observations after a state change *)

Lemma params_of_fresh g h n o wr (l : loc) (m : pydict) :
  params_of (mkState (<["params" := GDict l]> g) (<[l := m]> h) n o wr) = Some m.
Proof.
  unfold params_of, dict_at. cbn [globals heap].
  rewrite lookup_insert_eq. apply lookup_insert_eq.
Qed.

Lemma rcParams_of_fresh g h n o wr (l : loc) (m : pydict) :
  l <> rcParams ->
  rcParams_of (mkState g (<[l := m]> h) n o wr) = h !! rcParams.
Proof. intros Hl. unfold rcParams_of. cbn [heap]. now apply lookup_insert_ne. Qed.

Lemma dict_update_twice (d e : pydict) :
  dict_update (dict_update d e) e = dict_update d e.
Proof.
  unfold dict_update. rewrite (assoc_L (∪)). now rewrite (idemp_L (∪)).
Qed.

(** Running the merge once more on a loaded module. *)
Lemma merge_params_again (w : world) (flag : bool) (path : string) (rc0 : pydict) :
  let s := loaded w flag path rc0 in
  merge_params s =
  Ok tt (mkState (<["params" := GDict 5]> (globals s))
                 (<[5%positive := merged flag]> (heap s))
                 6 (stdout s) (warnings s)).
Proof.
  intros s.
  destruct flag.
  - apply (merge_params_available s base_params_def latex_params_display).
    + apply loaded_flag.
    + apply loaded_base_params.
    + apply loaded_latex_params.
  - apply (merge_params_fallback s base_params_def).
    + apply loaded_flag.
    + apply loaded_base_params.
Qed.

(** C5.  The merged mapping is a function of the availability flag alone:
    two runs with the same flag, on whatever hosts and prior
    configurations, end with the same merged mapping; and running the
    merge and the apply step a second time yields that mapping again and
    leaves the global configuration as the first run left it. *)
Theorem merge_is_function_of_flag
    (w1 w2 : world) (rc1 rc2 : pydict) (s1 s2 : state) :
  import_module w1 rc1 = Ok tt s1 ->
  import_module w2 rc2 = Ok tt s2 ->
  flag_of s1 = flag_of s2 ->
  is_Some (params_of s1) /\
  params_of s1 = params_of s2 /\
  exists s1',
    (merge_params ;;; apply_params w1) s1 = Ok tt s1' /\
    params_of s1' = params_of s1 /\
    rcParams_of s1' = rcParams_of s1.
Proof.
  intros H1 H2 Hflag.
  destruct (import_module_steps _ _ _ H1) as (_ & _ & Hall & ->).
  pose proof (import_module_loaded _ _ _ H2) as ->.
  rewrite !loaded_flag in Hflag. injection Hflag as <-.
  rewrite !loaded_params. split; [eauto|]. split; [reflexivity|].
  set (f1 := lookup_available w1) in *. set (p1 := lookup_path w1).
  eexists. split.
  - erewrite bind_Ok by apply merge_params_again. cbv beta.
    apply (apply_params_run w1 _ (merged f1)
             (dict_update rc1 (validated w1 (merged f1)))).
    + apply params_of_fresh.
    + rewrite rcParams_of_fresh by done. apply (loaded_rcParams w1 f1 p1 rc1).
    + exact Hall.
  - unfold applied. cbn [globals heap next_loc stdout warnings]. split.
    + unfold params_of, dict_at. cbn [globals heap].
      rewrite lookup_insert_eq, lookup_insert_ne by done. apply lookup_insert_eq.
    + unfold rcParams_of at 1. cbn [heap]. rewrite lookup_insert_eq.
      rewrite dict_update_twice. symmetry. apply loaded_rcParams.
Qed.

Lemma merge_is_function_of_flag_witness :
  import_module host_without_latex prior_rc = Ok tt (loaded host_without_latex false "" prior_rc) /\
  import_module host_without_which ∅ = Ok tt (loaded host_without_which false "" ∅) /\
  flag_of (loaded host_without_latex false "" prior_rc) = flag_of (loaded host_without_which false "" ∅) /\
  is_Some (params_of (loaded host_without_latex false "" prior_rc)) /\
  params_of (loaded host_without_latex false "" prior_rc)
    = params_of (loaded host_without_which false "" ∅) /\
  exists s1',
    (merge_params ;;; apply_params host_without_latex)
      (loaded host_without_latex false "" prior_rc) = Ok tt s1' /\
    params_of s1' = params_of (loaded host_without_latex false "" prior_rc) /\
    rcParams_of s1' = rcParams_of (loaded host_without_latex false "" prior_rc).
Proof.
  split; [by_evaluation|]. split; [by_evaluation|]. split; [by_evaluation|].
  apply (merge_is_function_of_flag host_without_latex host_without_which
           prior_rc ∅ (loaded host_without_latex false "" prior_rc)
           (loaded host_without_which false "" ∅));
    by_evaluation.
Defined.

Lemma merge_fallback_as_update (base : pydict) :
  merge_fallback base = dict_update (dict_update ∅ base) fallback_overrides.
Proof.
  assert (E : fallback_overrides =
              <["mathtext.fontset" := VStr "dejavuserif"]>
                (<["font.family" := VStr "serif"]> ∅)) by by_evaluation.
  unfold merge_fallback, dict_set. rewrite E. unfold dict_update.
  rewrite <- !insert_union_l. now rewrite (left_id_L ∅ (∪)).
Qed.

Lemma dict_update_later_wins (d e : pydict) (k : string) (v : value) :
  e !! k = Some v -> dict_update d e !! k = Some v.
Proof. intros H. unfold dict_update. now apply lookup_union_Some_l. Qed.

Lemma dict_update_keeps (d e : pydict) (k : string) :
  e !! k = None -> dict_update d e !! k = d !! k.
Proof. intros H. unfold dict_update. now apply lookup_union_r. Qed.

(** C7 as stated fails: the base parameter set has no entry for
    'font.family' or 'mathtext.fontset', so the two fallback keys do not
    collide with it. *)
Lemma fallback_keys_do_not_collide :
  base_params_def !! "font.family" = None /\
  base_params_def !! "mathtext.fontset" = None /\
  colliding_keys base_params_def fallback_overrides = ∅ /\
  colliding_keys base_params_def fallback_overrides <> fallback_keys.
Proof.
  split; [by_evaluation|]. split; [by_evaluation|].
  split; by_decision.
Qed.

(** C7, amended.  The merge is later-key-wins: an item written later
    replaces an earlier one with the same key, and the two fallback items
    would supersede a base entry for their keys whatever the base set
    held.  On the module's own dictionaries no key collides: the base keys
    are disjoint from the typeset keys and from the two fallback keys. *)
Theorem merge_collisions (w : world) (rc0 : pydict) (s : state) :
  import_module w rc0 = Ok tt s ->
  (forall (base latex : pydict) k v,
     latex !! k = Some v -> merge_available base latex !! k = Some v) /\
  (forall (base : pydict) k v,
     fallback_overrides !! k = Some v -> merge_fallback base !! k = Some v) /\
  (forall (base latex : pydict) k,
     latex !! k = None -> merge_available base latex !! k = base !! k) /\
  (forall (base : pydict) k,
     fallback_overrides !! k = None -> merge_fallback base !! k = base !! k) /\
  exists base latex,
    dict_at "base_params" s = Some base /\
    dict_at "latex_params" s = Some latex /\
    colliding_keys base latex = ∅ /\
    colliding_keys base fallback_overrides = ∅.
Proof.
  intros Hrun.
  destruct (import_module_Ok _ _ _ Hrun) as (flag & path & ->).
  split; [|split; [|split; [|split]]].
  - intros base latex k v H. unfold merge_available.
    now apply dict_update_later_wins.
  - intros base k v H. rewrite merge_fallback_as_update.
    now apply dict_update_later_wins.
  - intros base latex k H. unfold merge_available.
    rewrite dict_update_keeps by exact H. now rewrite dict_update_empty.
  - intros base k H. rewrite merge_fallback_as_update.
    rewrite dict_update_keeps by exact H. now rewrite dict_update_empty.
  - exists base_params_def, latex_params_display.
    split; [apply loaded_base_params|]. split; [apply loaded_latex_params|].
    split; by_decision.
Qed.

Lemma merge_collisions_witness :
  import_module host_with_latex prior_rc
    = Ok tt (loaded host_with_latex true "/usr/bin/latex" prior_rc) /\
  (forall (base latex : pydict) k v,
     latex !! k = Some v -> merge_available base latex !! k = Some v) /\
  (forall (base : pydict) k v,
     fallback_overrides !! k = Some v -> merge_fallback base !! k = Some v) /\
  (forall (base latex : pydict) k,
     latex !! k = None -> merge_available base latex !! k = base !! k) /\
  (forall (base : pydict) k,
     fallback_overrides !! k = None -> merge_fallback base !! k = base !! k) /\
  exists base latex,
    dict_at "base_params" (loaded host_with_latex true "/usr/bin/latex" prior_rc) = Some base /\
    dict_at "latex_params" (loaded host_with_latex true "/usr/bin/latex" prior_rc) = Some latex /\
    colliding_keys base latex = ∅ /\
    colliding_keys base fallback_overrides = ∅.
Proof.
  split; [by_evaluation|].
  apply (merge_collisions host_with_latex prior_rc). by_evaluation.
Defined.

(** C8.  The apply step writes every key of the merged configuration into
    matplotlib's global configuration object, whatever that object held
    for the key before: the key is bound to the value of the merged
    configuration in the form matplotlib's validator for the key stores
    it.  Every key the merged configuration lacks keeps the value it had
    before the step. *)
Theorem apply_writes_merged (w : world) (rc0 : pydict) (s : state) :
  import_module w rc0 = Ok tt s ->
  exists s0 m rc_before rc_after,
    before_apply w (initial rc0) = Ok tt s0 /\
    apply_params w s0 = Ok tt s /\
    params_of s0 = Some m /\
    rcParams_of s0 = Some rc_before /\
    rcParams_of s = Some rc_after /\
    (forall k v, m !! k = Some v ->
       exists check stored,
         validate w k = Some check /\ check v = Some stored /\
         rc_after !! k = Some stored) /\
    (forall k, m !! k = None -> rc_after !! k = rc_before !! k).
Proof.
  intros Hrun.
  destruct (import_module_steps _ _ _ Hrun) as (Hpre & Happly & Hall & ->).
  set (flag := lookup_available w) in *. set (path := lookup_path w) in *.
  exists (built flag path rc0), (merged flag), rc0,
         (dict_update rc0 (validated w (merged flag))).
  split; [exact Hpre|].
  split; [exact Happly|].
  split; [apply built_params|].
  split; [apply built_rcParams|].
  split; [apply loaded_rcParams|].
  split.
  - intros k v Hk. destruct (Hall k v Hk) as [stored Hstored].
    destruct (validate w k) as [check|] eqn:Hcheck; [|discriminate].
    exists check, stored. cbn in Hstored. split; [reflexivity|]. split; [exact Hstored|].
    apply dict_update_later_wins. rewrite validated_lookup, Hk. cbn.
    rewrite Hcheck. exact Hstored.
  - intros k Hk. apply dict_update_keeps. now rewrite validated_lookup, Hk.
Qed.

Lemma apply_writes_merged_witness :
  import_module host_without_latex prior_rc = Ok tt (loaded host_without_latex false "" prior_rc) /\
  exists s0 m rc_before rc_after,
    before_apply host_without_latex (initial prior_rc) = Ok tt s0 /\
    apply_params host_without_latex s0 = Ok tt (loaded host_without_latex false "" prior_rc) /\
    params_of s0 = Some m /\
    rcParams_of s0 = Some rc_before /\
    rcParams_of (loaded host_without_latex false "" prior_rc) = Some rc_after /\
    (forall k v, m !! k = Some v ->
       exists check stored,
         validate host_without_latex k = Some check /\ check v = Some stored /\
         rc_after !! k = Some stored) /\
    (forall k, m !! k = None -> rc_after !! k = rc_before !! k).
Proof.
  split; [by_evaluation|].
  apply (apply_writes_merged host_without_latex prior_rc). by_evaluation.
Defined.

(** C9.  The base parameter set and the typeset parameter set are not
    mutated: once the import has run the merge and the apply step, the
    names base_params and latex_params are bound to the objects they were
    bound to at definition time, and these hold the mappings of their
    displays. *)
Theorem parameter_sets_not_mutated (w : world) (rc0 : pydict) (s : state) :
  import_module w rc0 = Ok tt s ->
  exists s1,
    definitions (initial rc0) = Ok tt s1 /\
    globals s !! "base_params" = globals s1 !! "base_params" /\
    globals s !! "latex_params" = globals s1 !! "latex_params" /\
    dict_at "base_params" s1 = Some base_params_def /\
    dict_at "base_params" s = Some base_params_def /\
    dict_at "latex_params" s1 = Some latex_params_display /\
    dict_at "latex_params" s = Some latex_params_display.
Proof.
  intros Hrun.
  destruct (import_module_Ok _ _ _ Hrun) as (flag & path & ->).
  exists (defined_state rc0). split; [apply definitions_run|].
  destruct (loaded_base_params w flag path rc0) as [Hb1 Hb2].
  destruct (loaded_latex_params w flag path rc0) as [Hl1 Hl2].
  rewrite Hb1, Hl1.
  repeat apply conj; try assumption; by_evaluation.
Qed.

Lemma parameter_sets_not_mutated_witness :
  import_module host_with_latex prior_rc
    = Ok tt (loaded host_with_latex true "/usr/bin/latex" prior_rc) /\
  exists s1,
    definitions (initial prior_rc) = Ok tt s1 /\
    globals (loaded host_with_latex true "/usr/bin/latex" prior_rc) !! "base_params"
      = globals s1 !! "base_params" /\
    globals (loaded host_with_latex true "/usr/bin/latex" prior_rc) !! "latex_params"
      = globals s1 !! "latex_params" /\
    dict_at "base_params" s1 = Some base_params_def /\
    dict_at "base_params" (loaded host_with_latex true "/usr/bin/latex" prior_rc)
      = Some base_params_def /\
    dict_at "latex_params" s1 = Some latex_params_display /\
    dict_at "latex_params" (loaded host_with_latex true "/usr/bin/latex" prior_rc)
      = Some latex_params_display.
Proof.
  split; [by_evaluation|].
  apply (parameter_sets_not_mutated host_with_latex prior_rc). by_evaluation.
Defined.

(** The line the probe prints on success is never the line the module
    prints on failure. *)
Lemma found_line_differs (path : string) : found_line path <> not_found_line.
Proof. unfold found_line, not_found_line. cbn [append]. discriminate. Qed.

(** C10.  The fallback warning and the 'LaTeX not found in PATH' line are
    emitted exactly when the availability flag is false; when the flag is
    true the module issues no warning at all. *)
Theorem warning_iff_unavailable (w : world) (rc0 : pydict) (s : state) :
  import_module w rc0 = Ok tt s ->
  exists flag,
    flag_of s = Some flag /\
    (fallback_warning ∈ warnings s <-> flag = false) /\
    (not_found_line ∈ stdout s <-> flag = false) /\
    (flag = true -> warnings s = []).
Proof.
  intros Hrun.
  destruct (import_module_Ok _ _ _ Hrun) as (flag & path & ->).
  exists flag. split; [apply loaded_flag|].
  unfold loaded. cbn [stdout warnings].
  destruct flag.
  - split; [|split].
    + split; [|discriminate]. intros H. now apply elem_of_nil in H.
    + split; [|discriminate]. intros H.
      apply elem_of_cons in H as [H|H].
      * symmetry in H. now apply found_line_differs in H.
      * exfalso. revert H. by_decision.
    + reflexivity.
  - split; [|split].
    + split; [reflexivity|]. intros _. apply list_elem_of_here.
    + split; [reflexivity|]. intros _. apply list_elem_of_here.
    + discriminate.
Qed.

Lemma warning_iff_unavailable_witness :
  import_module host_without_which prior_rc = Ok tt (loaded host_without_latex false "" prior_rc) /\
  exists flag,
    flag_of (loaded host_without_latex false "" prior_rc) = Some flag /\
    (fallback_warning ∈ warnings (loaded host_without_latex false "" prior_rc) <-> flag = false) /\
    (not_found_line ∈ stdout (loaded host_without_latex false "" prior_rc) <-> flag = false) /\
    (flag = true -> warnings (loaded host_without_latex false "" prior_rc) = []).
Proof.
  split; [by_evaluation|].
  apply (warning_iff_unavailable host_without_which prior_rc). by_evaluation.
Defined.

(** * Further properties of the module *)

(** ** What a completed import reports *)

(** A completed import has caught whatever the lookup raised. *)
Lemma import_lookup_caught (w : world) (rc0 : pydict) (s : state) :
  import_module w rc0 = Ok tt s ->
  forall e, w ["which"; "latex"] 5 = Raises e -> probe_caught e = true.
Proof.
  unfold import_module, module_body. intros H e He.
  rewrite (bind_Ok _ _ _ _ _ (definitions_run rc0)) in H. cbv beta in H.
  apply bind_Ok_inv in H as (u & s2 & Hprobe & _).
  unfold probe_and_report in Hprobe.
  apply bind_Ok_inv in Hprobe as (available & s1 & Hprobe & _).
  rewrite check_latex_available_run, He in Hprobe.
  destruct (probe_caught e); [reflexivity | discriminate].
Qed.

(** X3.  The flag a completed import leaves in LATEX_AVAILABLE is the
    answer of the lookup: true exactly when [which latex] ran to its end
    with exit code 0. *)
Theorem flag_reflects_lookup (w : world) (rc0 : pydict) (s : state) :
  import_module w rc0 = Ok tt s ->
  (flag_of s = Some true <->
   exists r, w ["which"; "latex"] 5 = Completes r /\ returncode r = 0) /\
  (flag_of s = Some false <->
   match w ["which"; "latex"] 5 with
   | Completes r => returncode r <> 0
   | Raises e => probe_caught e = true
   end).
Proof.
  intros Hrun.
  pose proof (import_lookup_caught _ _ _ Hrun) as Hcaught.
  pose proof (import_module_loaded _ _ _ Hrun) as ->.
  rewrite loaded_flag. unfold lookup_available.
  destruct (run w _ _) as [r|e].
  - destruct (Z.eqb_spec (returncode r) 0) as [Hz|Hz]; split; split.
    + eauto.
    + reflexivity.
    + discriminate.
    + contradiction.
    + discriminate.
    + intros (r' & [= <-] & Hr). contradiction.
    + auto.
    + reflexivity.
  - split; split.
    + discriminate.
    + intros (r & [=] & _).
    + intros _. now apply Hcaught.
    + reflexivity.
Qed.

Lemma flag_reflects_lookup_witness :
  import_module host_with_latex prior_rc
    = Ok tt (loaded host_with_latex true "/usr/bin/latex" prior_rc) /\
  (flag_of (loaded host_with_latex true "/usr/bin/latex" prior_rc) = Some true <->
   exists r, host_with_latex ["which"; "latex"] 5 = Completes r /\ returncode r = 0).
Proof.
  split; [by_evaluation|].
  apply (flag_reflects_lookup host_with_latex prior_rc). by_evaluation.
Defined.

(** X4.  A completed import prints exactly six lines: the status line of
    the lookup (the path found, or 'LaTeX not found in PATH'), then the
    five lines of the summary, whose second line reports the same
    availability as the flag. *)
Theorem import_prints_six_lines (w : world) (rc0 : pydict) (s : state) :
  import_module w rc0 = Ok tt s ->
  exists flag status,
    flag_of s = Some flag /\
    stdout s =
      [ status;
        "🎨 Scientific plotting configuration loaded";
        (if flag then "   LaTeX support: ✓ Enabled" else "   LaTeX support: ✗ Disabled");
        "   Default save format: png";
        "   Contour levels: 100";
        "   Colormap: bwr" ] /\
    (flag = false -> status = "✗ LaTeX not found in PATH") /\
    (flag = true ->
     exists r, w ["which"; "latex"] 5 = Completes r /\
               status = "✓ LaTeX found at: " ++ strip (proc_stdout r)).
Proof.
  intros Hrun. pose proof (import_module_loaded _ _ _ Hrun) as ->.
  exists (lookup_available w),
         (if lookup_available w then found_line (lookup_path w) else not_found_line).
  split; [apply loaded_flag|].
  unfold lookup_available, lookup_path.
  destruct (w _ _) as [r|e].
  - destruct (returncode r =? 0)%Z.
    + split; [by_evaluation|]. split; [discriminate|]. intros _. eauto.
    + split; [by_evaluation|]. split; [reflexivity|discriminate].
  - split; [by_evaluation|]. split; [reflexivity|discriminate].
Qed.

Lemma import_prints_six_lines_witness :
  import_module host_with_latex prior_rc
    = Ok tt (loaded host_with_latex true "/usr/bin/latex" prior_rc) /\
  exists flag status,
    flag_of (loaded host_with_latex true "/usr/bin/latex" prior_rc) = Some flag /\
    stdout (loaded host_with_latex true "/usr/bin/latex" prior_rc) =
      [ status;
        "🎨 Scientific plotting configuration loaded";
        (if flag then "   LaTeX support: ✓ Enabled" else "   LaTeX support: ✗ Disabled");
        "   Default save format: png";
        "   Contour levels: 100";
        "   Colormap: bwr" ] /\
    (flag = false -> status = "✗ LaTeX not found in PATH") /\
    (flag = true ->
     exists r, host_with_latex ["which"; "latex"] 5 = Completes r /\
               status = "✓ LaTeX found at: " ++ strip (proc_stdout r)).
Proof.
  split; [by_evaluation|].
  apply (import_prints_six_lines host_with_latex prior_rc). by_evaluation.
Defined.

(** X5.  A completed import issues at most one warning: none when the
    flag is true, and exactly one, of category UserWarning, when it is
    false. *)
Theorem import_warns_at_most_once (w : world) (rc0 : pydict) (s : state) :
  import_module w rc0 = Ok tt s ->
  exists flag,
    flag_of s = Some flag /\
    length (warnings s) = (if flag then 0 else 1)%nat /\
    (forall msg c, (msg, c) ∈ warnings s -> c = UserWarning /\ (msg, c) = fallback_warning).
Proof.
  intros Hrun.
  destruct (import_module_Ok _ _ _ Hrun) as (flag & path & ->).
  exists flag. split; [apply loaded_flag|].
  unfold loaded. cbn [warnings].
  destruct flag; (split; [reflexivity|]); intros msg c H.
  - now apply elem_of_nil in H.
  - apply list_elem_of_singleton in H. split; [|exact H].
    unfold fallback_warning in H. now injection H.
Qed.

Lemma import_warns_at_most_once_witness :
  import_module host_without_latex prior_rc = Ok tt (loaded host_without_latex false "" prior_rc) /\
  exists flag,
    flag_of (loaded host_without_latex false "" prior_rc) = Some flag /\
    length (warnings (loaded host_without_latex false "" prior_rc)) = (if flag then 0 else 1)%nat /\
    (forall msg c, (msg, c) ∈ warnings (loaded host_without_latex false "" prior_rc) ->
                   c = UserWarning /\ (msg, c) = fallback_warning).
Proof.
  split; [by_evaluation|].
  apply (import_warns_at_most_once host_without_latex prior_rc). by_evaluation.
Defined.

(** ** Objects and aliasing *)

(** [obj.update(e)] changes the object it is called on and nothing else. *)
Lemma update_object_frame (l : loc) (e : pydict) (s s' : state) :
  update_object l e s = Ok tt s' ->
  globals s' = globals s /\
  stdout s' = stdout s /\
  warnings s' = warnings s /\
  heap s' !! l = (fun d => dict_update d e) <$> heap s !! l /\
  (forall l', l' <> l -> heap s' !! l' = heap s !! l').
Proof.
  unfold update_object. destruct (heap s !! l) as [d|] eqn:Hd; [|discriminate].
  intros [= <-]. cbn [globals heap stdout warnings].
  repeat apply conj; try reflexivity.
  - now rewrite lookup_insert_eq.
  - intros l' Hl'. now apply lookup_insert_ne.
Qed.

(** X6.  The merged configuration is an object of its own: after a
    completed import the names base_params, latex_params and params are
    bound to three different objects, none of them matplotlib's
    configuration object, so updating params in place afterwards changes
    neither base_params, nor latex_params, nor the global configuration. *)
Theorem params_is_a_copy (w : world) (rc0 : pydict) (s : state) :
  import_module w rc0 = Ok tt s ->
  exists lb ll lp,
    globals s !! "base_params" = Some (GDict lb) /\
    globals s !! "latex_params" = Some (GDict ll) /\
    globals s !! "params" = Some (GDict lp) /\
    NoDup [rcParams; lb; ll; lp] /\
    forall (e : pydict) (s' : state),
      update_object lp e s = Ok tt s' ->
      params_of s' = (fun d => dict_update d e) <$> params_of s /\
      dict_at "base_params" s' = dict_at "base_params" s /\
      dict_at "latex_params" s' = dict_at "latex_params" s /\
      rcParams_of s' = rcParams_of s.
Proof.
  intros Hrun.
  destruct (import_module_Ok _ _ _ Hrun) as (flag & path & ->).
  assert (Hb : globals (loaded w flag path rc0) !! "base_params" = Some (GDict 2))
    by apply loaded_base_params.
  assert (Hl : globals (loaded w flag path rc0) !! "latex_params" = Some (GDict 3))
    by apply loaded_latex_params.
  assert (Hp : globals (loaded w flag path rc0) !! "params" = Some (GDict 4)).
  { rewrite loaded_global. unfold loaded_globals. apply lookup_insert_eq. }
  exists 2%positive, 3%positive, 4%positive.
  split; [exact Hb|]. split; [exact Hl|]. split; [exact Hp|].
  split.
  { by_decision. }
  intros e s' Hup.
  destruct (update_object_frame _ _ _ _ Hup) as (Hg & _ & _ & Hat & Hother).
  unfold params_of, dict_at, rcParams_of. rewrite Hg, Hb, Hl, Hp.
  rewrite Hat. unfold rcParams. rewrite !Hother by done. auto.
Qed.

Lemma params_is_a_copy_witness :
  import_module host_with_latex prior_rc
    = Ok tt (loaded host_with_latex true "/usr/bin/latex" prior_rc) /\
  exists lb ll lp,
    globals (loaded host_with_latex true "/usr/bin/latex" prior_rc) !! "base_params" = Some (GDict lb) /\
    globals (loaded host_with_latex true "/usr/bin/latex" prior_rc) !! "latex_params" = Some (GDict ll) /\
    globals (loaded host_with_latex true "/usr/bin/latex" prior_rc) !! "params" = Some (GDict lp) /\
    NoDup [rcParams; lb; ll; lp] /\
    forall (e : pydict) (s' : state),
      update_object lp e (loaded host_with_latex true "/usr/bin/latex" prior_rc) = Ok tt s' ->
      params_of s' = (fun d => dict_update d e)
                       <$> params_of (loaded host_with_latex true "/usr/bin/latex" prior_rc) /\
      dict_at "base_params" s'
        = dict_at "base_params" (loaded host_with_latex true "/usr/bin/latex" prior_rc) /\
      dict_at "latex_params" s'
        = dict_at "latex_params" (loaded host_with_latex true "/usr/bin/latex" prior_rc) /\
      rcParams_of s' = rcParams_of (loaded host_with_latex true "/usr/bin/latex" prior_rc).
Proof.
  split; [by_evaluation|].
  apply (params_is_a_copy host_with_latex prior_rc). by_evaluation.
Defined.

(** X7.  The merge never changes an existing object: run on any state in
    which the flag and the parameter sets it reads are bound, it binds
    params to a newly allocated object holding the merge of the branch
    taken, and leaves every other object, every other name, the printed
    lines and the warnings as they were. *)
Theorem merge_params_allocates (s : state) (flag : bool) (base latex : pydict) :
  flag_of s = Some flag ->
  dict_at "base_params" s = Some base ->
  (flag = true -> dict_at "latex_params" s = Some latex) ->
  heap s !! next_loc s = None ->
  exists s',
    merge_params s = Ok tt s' /\
    params_of s' =
      Some (if flag then merge_available base latex else merge_fallback base) /\
    (forall l d, heap s !! l = Some d -> heap s' !! l = Some d) /\
    (forall x, x <> "params" -> globals s' !! x = globals s !! x) /\
    stdout s' = stdout s /\
    warnings s' = warnings s.
Proof.
  intros Hflag Hbase Hlatex Hfresh.
  assert (Hkeep : forall (d' : pydict) l d,
            heap s !! l = Some d -> <[next_loc s := d']> (heap s) !! l = Some d).
  { intros d' l d Hl. rewrite lookup_insert_ne; [exact Hl|]. intros <-. congruence. }
  destruct flag; eexists; (split; [|split; [|split; [|split; [|split]]]]).
  - apply (merge_params_available s base latex); auto.
  - apply params_of_fresh.
  - apply Hkeep.
  - intros x Hx. cbn [globals]. now apply lookup_insert_ne.
  - reflexivity.
  - reflexivity.
  - apply (merge_params_fallback s base); auto.
  - apply params_of_fresh.
  - apply Hkeep.
  - intros x Hx. cbn [globals]. now apply lookup_insert_ne.
  - reflexivity.
  - reflexivity.
Qed.

Lemma merge_params_allocates_witness :
  flag_of (reported false "" prior_rc) = Some false /\
  dict_at "base_params" (reported false "" prior_rc) = Some base_params_def /\
  heap (reported false "" prior_rc) !! next_loc (reported false "" prior_rc) = None /\
  exists s',
    merge_params (reported false "" prior_rc) = Ok tt s' /\
    params_of s' = Some (merge_fallback base_params_def) /\
    (forall l d, heap (reported false "" prior_rc) !! l = Some d -> heap s' !! l = Some d) /\
    (forall x, x <> "params" ->
               globals s' !! x = globals (reported false "" prior_rc) !! x) /\
    stdout s' = stdout (reported false "" prior_rc) /\
    warnings s' = warnings (reported false "" prior_rc).
Proof.
  split; [by_evaluation|]. split; [by_evaluation|]. split; [by_evaluation|].
  apply (merge_params_allocates (reported false "" prior_rc) false
           base_params_def latex_params_display);
    [by_evaluation | by_evaluation | discriminate | by_evaluation].
Defined.

(** ** The font sizes *)

(** The seven entries of the base display that name a size. *)
Lemma base_params_display_sizes (S M L : Z) :
  base_params_display S M L =
  dict_literal
    [ ("font.size", VInt M); ("axes.titlesize", VInt L); ("axes.labelsize", VInt M);
      ("xtick.labelsize", VInt S); ("ytick.labelsize", VInt S);
      ("legend.fontsize", VInt M); ("figure.titlesize", VInt L) ]
  ∪ base_params_def.
Proof. by_evaluation. Qed.

Lemma size_entries_dom (S M L : Z) :
  dom (dict_literal
         [ ("font.size", VInt M); ("axes.titlesize", VInt L); ("axes.labelsize", VInt M);
           ("xtick.labelsize", VInt S); ("ytick.labelsize", VInt S);
           ("legend.fontsize", VInt M); ("figure.titlesize", VInt L) ])
  = size_keys.
Proof. by_evaluation. Qed.

(** X10.  The font sizes of base_params are the three size names: built
    on any state that binds SMALL_SIZE, MEDIUM_SIZE and LARGE_SIZE to
    integers, base_params gives MEDIUM_SIZE to font.size, axes.labelsize
    and legend.fontsize, LARGE_SIZE to axes.titlesize and
    figure.titlesize, SMALL_SIZE to the two tick label sizes, and every
    other entry is what it is in the module as written. *)
Theorem font_sizes_follow_constants (s : state) (S M L : Z) :
  globals s !! "SMALL_SIZE" = Some (GInt S) ->
  globals s !! "MEDIUM_SIZE" = Some (GInt M) ->
  globals s !! "LARGE_SIZE" = Some (GInt L) ->
  exists s' base,
    define_base_params s = Ok tt s' /\
    dict_at "base_params" s' = Some base /\
    base !! "font.size" = Some (VInt M) /\
    base !! "axes.labelsize" = Some (VInt M) /\
    base !! "legend.fontsize" = Some (VInt M) /\
    base !! "axes.titlesize" = Some (VInt L) /\
    base !! "figure.titlesize" = Some (VInt L) /\
    base !! "xtick.labelsize" = Some (VInt S) /\
    base !! "ytick.labelsize" = Some (VInt S) /\
    (forall k, k ∉ size_keys -> base !! k = base_params_def !! k).
Proof.
  intros HS HM HL.
  eexists. exists (base_params_display S M L). split.
  { unfold define_base_params.
    run_step (load_int_run s _ _ HS).
    run_step (load_int_run s _ _ HM).
    run_step (load_int_run s _ _ HL).
    reflexivity. }
  split.
  { unfold dict_at. cbn [globals heap].
    rewrite lookup_insert_eq. apply lookup_insert_eq. }
  repeat apply conj; try by_evaluation.
  intros k Hk. rewrite base_params_display_sizes.
  apply lookup_union_r. apply not_elem_of_dom. now rewrite size_entries_dom.
Qed.

Lemma font_sizes_follow_constants_witness :
  globals (mkState {[ "SMALL_SIZE" := GInt 8; "MEDIUM_SIZE" := GInt 11;
                      "LARGE_SIZE" := GInt 16 ]} {[ rcParams := prior_rc ]} 2 [] [])
    !! "MEDIUM_SIZE" = Some (GInt 11) /\
  exists s' base,
    define_base_params
      (mkState {[ "SMALL_SIZE" := GInt 8; "MEDIUM_SIZE" := GInt 11;
                  "LARGE_SIZE" := GInt 16 ]} {[ rcParams := prior_rc ]} 2 [] [])
      = Ok tt s' /\
    dict_at "base_params" s' = Some base /\
    base !! "font.size" = Some (VInt 11) /\
    base !! "axes.labelsize" = Some (VInt 11) /\
    base !! "legend.fontsize" = Some (VInt 11) /\
    base !! "axes.titlesize" = Some (VInt 16) /\
    base !! "figure.titlesize" = Some (VInt 16) /\
    base !! "xtick.labelsize" = Some (VInt 8) /\
    base !! "ytick.labelsize" = Some (VInt 8) /\
    (forall k, k ∉ size_keys -> base !! k = base_params_def !! k).
Proof.
  split; [by_evaluation|].
  apply (font_sizes_follow_constants _ 8 11 16); by_evaluation.
Defined.

(** ** The path the probe prints *)

Lemma string_app_cons (a : Ascii.ascii) (s t : string) :
  String a s ++ t = String a (s ++ t).
Proof. reflexivity. Qed.

Lemma string_app_nil_r (s : string) : s ++ "" = s.
Proof.
  induction s as [|a s IH]; [reflexivity|]. now rewrite string_app_cons, IH.
Qed.

Lemma string_app_assoc (s1 s2 s3 : string) : (s1 ++ s2) ++ s3 = s1 ++ (s2 ++ s3).
Proof.
  induction s1 as [|a s1 IH]; [reflexivity|]. now rewrite !string_app_cons, IH.
Qed.

Lemma rev_app_app (s1 s2 : string) : String.rev_app s1 s2 = String.rev s1 ++ s2.
Proof.
  unfold String.rev. revert s2.
  induction s1 as [|a s1 IH]; intros s2; [reflexivity|].
  cbn [String.rev_app]. rewrite (IH (String a s2)), (IH (String a "")).
  now rewrite string_app_assoc.
Qed.

Lemma rev_app_append (s1 s2 acc : string) :
  String.rev_app (s1 ++ s2) acc = String.rev_app s2 (String.rev_app s1 acc).
Proof.
  revert acc. induction s1 as [|a s1 IH]; intros acc; [reflexivity|].
  rewrite string_app_cons. cbn [String.rev_app]. apply IH.
Qed.

Lemma string_rev_app (s1 s2 : string) :
  String.rev (s1 ++ s2) = String.rev s2 ++ String.rev s1.
Proof.
  unfold String.rev at 1. rewrite rev_app_append. apply rev_app_app.
Qed.

Lemma string_rev_involutive (s : string) : String.rev (String.rev s) = s.
Proof.
  induction s as [|a s IH]; [reflexivity|].
  change (String.rev (String a s)) with (String.rev_app s (String a "")).
  rewrite rev_app_app, string_rev_app, IH. reflexivity.
Qed.

Lemma lstrip_cons (a : Ascii.ascii) (t : string) :
  lstrip (String a t) =
  if is_space a then lstrip t else
  match t with
  | EmptyString => String a t
  | String b t2 =>
      if is_space2 a b then lstrip t2 else
      match t2 with
      | EmptyString => String a t
      | String c t3 => if is_space3 a b c then lstrip t3 else String a t
      end
  end.
Proof. reflexivity. Qed.

Lemma lstrip_reversed_cons (c : Ascii.ascii) (t : string) :
  lstrip_reversed (String c t) =
  if is_space c then lstrip_reversed t else
  match t with
  | EmptyString => String c t
  | String b t2 =>
      if is_space2 b c then lstrip_reversed t2 else
      match t2 with
      | EmptyString => String c t
      | String a t3 => if is_space3 a b c then lstrip_reversed t3 else String c t
      end
  end.
Proof. reflexivity. Qed.

Lemma only_space_cons (a : Ascii.ascii) (t : string) :
  only_space (String a t) =
  (is_space a && only_space t ||
   match t with
   | EmptyString => false
   | String b t2 =>
       is_space2 a b && only_space t2 ||
       match t2 with
       | EmptyString => false
       | String c t3 => is_space3 a b c && only_space t3
       end
   end).
Proof. reflexivity. Qed.

(** Whitespace followed by whitespace is whitespace. *)
Lemma only_space_app (n : nat) (x y : string) :
  (String.length x < n)%nat ->
  only_space x = true -> only_space y = true -> only_space (x ++ y) = true.
Proof.
  revert x. induction n as [|n IH]; intros x Hlen Hx Hy; [lia|].
  destruct x as [|a t]; [exact Hy|].
  cbn [String.length] in Hlen.
  rewrite string_app_cons, only_space_cons. rewrite only_space_cons in Hx.
  apply orb_true_iff in Hx as [Hx|Hx].
  { apply andb_true_iff in Hx as [-> Ht].
    rewrite (IH t) by (lia || assumption). reflexivity. }
  apply orb_true_iff. right.
  destruct t as [|b t2]; [discriminate|].
  cbn [String.length] in Hlen. rewrite string_app_cons.
  apply orb_true_iff in Hx as [Hx|Hx].
  { apply andb_true_iff in Hx as [-> Ht].
    rewrite (IH t2) by (lia || assumption). reflexivity. }
  apply orb_true_iff. right.
  destruct t2 as [|c t3]; [discriminate|].
  cbn [String.length] in Hlen. rewrite string_app_cons.
  apply andb_true_iff in Hx as [-> Ht].
  rewrite (IH t3) by (lia || assumption). reflexivity.
Qed.

(** [lstrip] leaves a string that does not start with whitespace; what it
    removed from the front is whitespace. *)
Lemma lstrip_spec (n : nat) (s : string) :
  (String.length s < n)%nat ->
  starts_with_space (lstrip s) = false /\
  exists pre, s = pre ++ lstrip s /\ only_space pre = true.
Proof.
  revert s. induction n as [|n IH]; intros s Hlen; [lia|].
  destruct s as [|a t]; [split; [reflexivity | now exists ""]|].
  cbn [String.length] in Hlen. rewrite lstrip_cons.
  destruct (is_space a) eqn:Ha.
  { destruct (IH t) as [H1 (pre & H2 & H3)]; [lia|].
    split; [exact H1|]. exists (String a pre). split.
    - rewrite string_app_cons. now rewrite <- H2.
    - rewrite only_space_cons, Ha, H3. reflexivity. }
  destruct t as [|b t2].
  { split; [cbn [starts_with_space]; now rewrite Ha | now exists ""]. }
  cbn [String.length] in Hlen.
  destruct (is_space2 a b) eqn:Hab.
  { destruct (IH t2) as [H1 (pre & H2 & H3)]; [lia|].
    split; [exact H1|]. exists (String a (String b pre)). split.
    - rewrite !string_app_cons. now rewrite <- H2.
    - rewrite only_space_cons, Ha, Hab, H3. reflexivity. }
  destruct t2 as [|c t3].
  { split; [cbn [starts_with_space]; now rewrite Ha, Hab | now exists ""]. }
  cbn [String.length] in Hlen.
  destruct (is_space3 a b c) eqn:Habc.
  { destruct (IH t3) as [H1 (pre & H2 & H3)]; [lia|].
    split; [exact H1|]. exists (String a (String b (String c pre))). split.
    - rewrite !string_app_cons. now rewrite <- H2.
    - rewrite only_space_cons, Ha, Hab, Habc, H3. reflexivity. }
  split; [cbn [starts_with_space]; now rewrite Ha, Hab, Habc | now exists ""].
Qed.

Lemma string_rev_cons (a : Ascii.ascii) (s : string) :
  String.rev (String a s) = String.rev s ++ String a "".
Proof.
  change (String.rev (String a s)) with (String.rev_app s (String a "")).
  apply rev_app_app.
Qed.

(** The same from the other end: what [lstrip_reversed] removed is, read
    forwards, whitespace. *)
Lemma lstrip_reversed_spec (n : nat) (s : string) :
  (String.length s < n)%nat ->
  starts_with_reversed_space (lstrip_reversed s) = false /\
  exists pre, s = pre ++ lstrip_reversed s /\ only_space (String.rev pre) = true.
Proof.
  revert s. induction n as [|n IH]; intros s Hlen; [lia|].
  destruct s as [|c t]; [split; [reflexivity | now exists ""]|].
  cbn [String.length] in Hlen. rewrite lstrip_reversed_cons.
  destruct (is_space c) eqn:Hc.
  { destruct (IH t) as [H1 (pre & H2 & H3)]; [lia|].
    split; [exact H1|]. exists (String c pre). split.
    - rewrite string_app_cons. now rewrite <- H2.
    - rewrite string_rev_cons.
      apply (only_space_app (S (String.length (String.rev pre)))); [lia|exact H3|].
      rewrite only_space_cons, Hc. reflexivity. }
  destruct t as [|b t2].
  { split; [cbn [starts_with_reversed_space]; now rewrite Hc | now exists ""]. }
  cbn [String.length] in Hlen.
  destruct (is_space2 b c) eqn:Hbc.
  { destruct (IH t2) as [H1 (pre & H2 & H3)]; [lia|].
    split; [exact H1|]. exists (String c (String b pre)). split.
    - rewrite !string_app_cons. now rewrite <- H2.
    - rewrite !string_rev_cons, string_app_assoc.
      apply (only_space_app (S (String.length (String.rev pre)))); [lia|exact H3|].
      rewrite string_app_cons. change ("" ++ String c "") with (String c "").
      rewrite only_space_cons, Hbc. apply orb_true_iff. right. reflexivity. }
  destruct t2 as [|a t3].
  { split; [cbn [starts_with_reversed_space]; now rewrite Hc, Hbc | now exists ""]. }
  cbn [String.length] in Hlen.
  destruct (is_space3 a b c) eqn:Habc.
  { destruct (IH t3) as [H1 (pre & H2 & H3)]; [lia|].
    split; [exact H1|]. exists (String c (String b (String a pre))). split.
    - rewrite !string_app_cons. now rewrite <- H2.
    - rewrite !string_rev_cons, !string_app_assoc.
      apply (only_space_app (S (String.length (String.rev pre)))); [lia|exact H3|].
      rewrite !string_app_cons. change ("" ++ String c "") with (String c "").
      change ("" ++ String b (String c "")) with (String b (String c "")).
      rewrite only_space_cons, Habc.
      apply orb_true_iff. right. apply orb_true_iff. right. reflexivity. }
  split; [cbn [starts_with_reversed_space]; now rewrite Hc, Hbc, Habc | now exists ""].
Qed.

(** [rstrip] leaves a string that does not end with whitespace; what it
    removed from the end is whitespace. *)
Lemma rstrip_spec (s : string) :
  ends_with_space (rstrip s) = false /\
  exists post, s = rstrip s ++ post /\ only_space post = true.
Proof.
  destruct (lstrip_reversed_spec (S (String.length (String.rev s))) (String.rev s))
    as [H1 (pre & H2 & H3)]; [lia|].
  unfold ends_with_space, rstrip. rewrite string_rev_involutive.
  split; [exact H1|].
  exists (String.rev pre). split; [|exact H3].
  rewrite <- string_rev_app, <- H2. now rewrite string_rev_involutive.
Qed.

(** A string that starts with whitespace still does when it is extended. *)
Lemma starts_with_space_app (p q : string) :
  starts_with_space (p ++ q) = false -> starts_with_space p = false.
Proof.
  destruct p as [|a [|b [|c p]]]; rewrite ?string_app_cons;
    cbn [starts_with_space]; try reflexivity.
  - intros H. apply orb_false_iff in H as [-> _]. reflexivity.
  - intros H. apply orb_false_iff in H as [-> H].
    apply orb_false_iff in H as [-> _]. reflexivity.
  - intros H. exact H.
Qed.

(** [strip] removes whitespace, and nothing but whitespace, from both ends
    until no whitespace is left at either end. *)
Lemma strip_spec (s : string) :
  starts_with_space (strip s) = false /\
  ends_with_space (strip s) = false /\
  exists pre post,
    s = pre ++ strip s ++ post /\ only_space pre = true /\ only_space post = true.
Proof.
  unfold strip.
  destruct (lstrip_spec (S (String.length s)) s) as [Hl (pre & Hpre & Hpre')]; [lia|].
  destruct (rstrip_spec (lstrip s)) as [Hr (post & Hpost & Hpost')].
  split; [|split; [exact Hr|]].
  - apply (starts_with_space_app _ post). now rewrite <- Hpost.
  - exists pre, post. now rewrite <- Hpost.
Qed.

(** X11.  When the probe returns on a host whose lookup exited with code
    0, it returns True and has printed exactly one line, '✓ LaTeX found
    at: ' followed by a path, changing nothing else; the path is the
    output of the lookup with whitespace, and nothing but whitespace,
    removed from both ends, and it has no whitespace character left at
    either end. *)
Theorem probe_prints_stripped_path
    (w : world) (s s' : state) (b : bool) (r : completed_process) :
  check_latex_available w s = Ok b s' ->
  w ["which"; "latex"] 5 = Completes r ->
  returncode r = 0 ->
  exists path,
    b = true /\
    s' = mkState (globals s) (heap s) (next_loc s)
                 (stdout s ++ ["✓ LaTeX found at: " ++ path]) (warnings s) /\
    starts_with_space path = false /\
    ends_with_space path = false /\
    exists pre post,
      proc_stdout r = pre ++ path ++ post /\
      only_space pre = true /\ only_space post = true.
Proof.
  intros Hrun Hw Hr. exists (strip (proc_stdout r)).
  rewrite check_latex_available_run, Hw, Hr in Hrun. cbn [Z.eqb] in Hrun.
  destruct (write_fails w _ _); [discriminate|].
  injection Hrun as <- <-.
  split; [reflexivity|]. split; [reflexivity|]. apply strip_spec.
Qed.

Lemma probe_prints_stripped_path_witness :
  check_latex_available host_with_latex (initial prior_rc)
    = Ok true (printed "✓ LaTeX found at: /usr/bin/latex" (initial prior_rc)) /\
  exists path,
    true = true /\
    printed "✓ LaTeX found at: /usr/bin/latex" (initial prior_rc)
      = mkState (globals (initial prior_rc)) (heap (initial prior_rc))
                (next_loc (initial prior_rc))
                (stdout (initial prior_rc) ++ ["✓ LaTeX found at: " ++ path])
                (warnings (initial prior_rc)) /\
    starts_with_space path = false /\
    ends_with_space path = false /\
    exists pre post,
      "/usr/bin/latex
" = pre ++ path ++ post /\
      only_space pre = true /\ only_space post = true.
Proof.
  split; [by_evaluation|].
  apply (probe_prints_stripped_path host_with_latex (initial prior_rc) _ true
           (mkCompleted 0 "/usr/bin/latex
")); [by_evaluation | reflexivity | reflexivity].
Defined.

(** ** The configuration object before line 151 *)

Section KeepsRcParams.
Variable rc0 : pydict.

Lemma ret_preserves {A} (a : A) : preserves (keeps_rcParams rc0) (ret a).
Proof. intros s Hs. exact Hs. Qed.

Lemma raise_preserves {A} (e : exn) : preserves (keeps_rcParams rc0) (@raise A e).
Proof. intros s Hs. exact Hs. Qed.

Lemma bind_preserves {A B} (m : M A) (k : A -> M B) :
  preserves (keeps_rcParams rc0) m ->
  (forall a, preserves (keeps_rcParams rc0) (k a)) ->
  preserves (keeps_rcParams rc0) (bind m k).
Proof.
  intros Hm Hk s Hs. unfold bind. specialize (Hm s Hs).
  destruct (m s) as [a s1|e s1]; [|exact Hm]. now apply Hk.
Qed.

Lemma try_except_preserves {A} (body handler : M A) (caught : exn -> bool) :
  preserves (keeps_rcParams rc0) body ->
  preserves (keeps_rcParams rc0) handler ->
  preserves (keeps_rcParams rc0) (try_except body caught handler).
Proof.
  intros Hb Hh s Hs. unfold try_except. specialize (Hb s Hs).
  destruct (body s) as [a s1|e s1]; [exact Hb|].
  destruct (caught e); [now apply Hh | exact Hb].
Qed.

Lemma assign_preserves (x : string) (v : gval) :
  preserves (keeps_rcParams rc0) (assign x v).
Proof. intros s Hs. exact Hs. Qed.

Lemma load_preserves (x : string) : preserves (keeps_rcParams rc0) (load x).
Proof. intros s Hs. unfold load. now destruct (globals s !! x). Qed.

Lemma deref_preserves (l : loc) : preserves (keeps_rcParams rc0) (deref l).
Proof. intros s Hs. unfold deref. now destruct (heap s !! l). Qed.

(** A new object is not the configuration object. *)
Lemma new_dict_preserves (d : pydict) : preserves (keeps_rcParams rc0) (new_dict d).
Proof.
  intros s [Hrc Hnext]. unfold new_dict, keeps_rcParams. cbn [heap next_loc].
  split; [|lia]. rewrite lookup_insert_ne by lia. exact Hrc.
Qed.

Lemma print_preserves (w : world) (line : string) :
  preserves (keeps_rcParams rc0) (print w line).
Proof. intros s Hs. unfold print. now destruct (write_fails w _ _). Qed.

Lemma warn_preserves (w : world) (msg : string) (c : warning_category) :
  preserves (keeps_rcParams rc0) (warn w msg c).
Proof. intros s Hs. unfold warn. now destruct (warning_is_error w _ _). Qed.

Lemma subprocess_run_preserves (w : world) (args : list string) (t : Z) :
  preserves (keeps_rcParams rc0) (subprocess_run w args t).
Proof. intros s Hs. unfold subprocess_run. now destruct (run w args t). Qed.

Local Hint Resolve ret_preserves raise_preserves assign_preserves load_preserves
  deref_preserves new_dict_preserves print_preserves warn_preserves
  subprocess_run_preserves : core.

Ltac preserves_steps :=
  repeat first
    [ apply bind_preserves; [|intros ?]
    | apply try_except_preserves
    | match goal with
      | |- preserves _ (match ?v with _ => _ end) => destruct v
      | |- preserves _ (if ?b then _ else _) => destruct b
      end
    | solve [auto] ].

Lemma load_int_preserves (x : string) : preserves (keeps_rcParams rc0) (load_int x).
Proof. unfold load_int. preserves_steps. Qed.

Lemma load_str_preserves (x : string) : preserves (keeps_rcParams rc0) (load_str x).
Proof. unfold load_str. preserves_steps. Qed.

Lemma load_bool_preserves (x : string) : preserves (keeps_rcParams rc0) (load_bool x).
Proof. unfold load_bool. preserves_steps. Qed.

Lemma load_dict_preserves (x : string) : preserves (keeps_rcParams rc0) (load_dict x).
Proof. unfold load_dict, load_ref. preserves_steps. Qed.

Local Hint Resolve load_int_preserves load_str_preserves load_bool_preserves
  load_dict_preserves : core.

Lemma definitions_preserve : preserves (keeps_rcParams rc0) definitions.
Proof.
  unfold definitions, define_font_sizes, define_base_params, define_latex_params,
    define_presets.
  preserves_steps.
Qed.

Lemma check_latex_available_preserves (w : world) :
  preserves (keeps_rcParams rc0) (check_latex_available w).
Proof. unfold check_latex_available. preserves_steps. Qed.

Lemma probe_and_report_preserves (w : world) :
  preserves (keeps_rcParams rc0) (probe_and_report w).
Proof.
  unfold probe_and_report. pose proof (check_latex_available_preserves w).
  preserves_steps.
Qed.

Lemma merge_params_preserves : preserves (keeps_rcParams rc0) merge_params.
Proof. unfold merge_params. preserves_steps. Qed.

Lemma print_summary_preserves (w : world) :
  preserves (keeps_rcParams rc0) (print_summary w).
Proof. unfold print_summary. preserves_steps. Qed.

Lemma before_apply_preserves (w : world) :
  preserves (keeps_rcParams rc0) (before_apply w).
Proof.
  unfold before_apply.
  pose proof definitions_preserve. pose proof (probe_and_report_preserves w).
  pose proof merge_params_preserves. pose proof (print_summary_preserves w).
  preserves_steps.
Qed.

End KeepsRcParams.

(** X2.  The module writes to matplotlib's configuration at line 151 and
    nowhere else: however lines 18-148 end, by running to their end or
    with an exception out of the lookup, out of a [print] or out of the
    warning, the configuration holds what it held before the import; and
    when they end with an exception, the import ends with that
    exception. *)
Theorem rcParams_untouched_before_apply (w : world) (rc0 : pydict) :
  match before_apply w (initial rc0) with
  | Ok _ s => rcParams_of s = Some rc0
  | Raised e s => rcParams_of s = Some rc0 /\ import_module w rc0 = Raised e s
  end.
Proof.
  assert (H0 : keeps_rcParams rc0 (initial rc0)).
  { split; [apply lookup_singleton_eq | reflexivity]. }
  pose proof (before_apply_preserves rc0 w (initial rc0) H0) as H.
  unfold import_module. rewrite module_body_split. unfold bind at 1.
  destruct (before_apply w (initial rc0)) as [u s|e s].
  - apply H.
  - split; [apply H | reflexivity].
Qed.

Lemma rcParams_untouched_before_apply_witness :
  before_apply host_with_error_filters (initial prior_rc)
    = Raised (WarningError UserWarning)
        (printed not_found_line
           (mkState (<["LATEX_AVAILABLE" := GBool false]> defined_globals)
                    (defined_heap prior_rc) 4 [] [])) /\
  rcParams_of
    (printed not_found_line
       (mkState (<["LATEX_AVAILABLE" := GBool false]> defined_globals)
                (defined_heap prior_rc) 4 [] [])) = Some prior_rc /\
  import_module host_with_error_filters prior_rc
    = Raised (WarningError UserWarning)
        (printed not_found_line
           (mkState (<["LATEX_AVAILABLE" := GBool false]> defined_globals)
                    (defined_heap prior_rc) 4 [] [])).
Proof.
  assert (H : before_apply host_with_error_filters (initial prior_rc)
    = Raised (WarningError UserWarning)
        (printed not_found_line
           (mkState (<["LATEX_AVAILABLE" := GBool false]> defined_globals)
                    (defined_heap prior_rc) 4 [] []))) by by_evaluation.
  split; [exact H|].
  pose proof (rcParams_untouched_before_apply host_with_error_filters prior_rc) as Hx.
  rewrite H in Hx. exact Hx.
Defined.
